(** * Production Hub event-template generator: a shallow embedding

    The generator reads one event document (a YAML mapping) and derives a
    Companion button-panel layout and a Markdown setup checklist from it
    ([generators/companion_generator.py], [generators/checklist_generator.py]),
    after the checks of [generate.py]'s [load_event].

    The embedding follows the Python sources function by function.  A
    document is read through typed records whose fields are options: [None]
    is an absent key, so that [d.get(k, default)] is [get_or default (k d)].
    The embedding covers the documents whose present keys hold values of the
    shape the generators' method calls need (a list where the code iterates,
    a string where it calls a string method); on other documents Python
    raises, and they are outside this development.  Strings are strings of
    code points below 128. *)

From Stdlib Require Import List String Ascii ZArith Lia Bool Arith.
From Stdlib Require Import Decimal DecimalString DecimalNat DecimalZ.
From Stdlib Require Import SpecFloat.
From Stdlib Require DecimalPos DecimalN.
Import ListNotations.
Set Warnings "-register-all".
Open Scope string_scope.

(** ** The Python runtime the generators rely on *)

Module Py.

(** The line feed, Python's ["\n"]. *)
Definition nl : string := String "010"%char EmptyString.

(** [str(n)] for a non-negative and for an arbitrary integer. *)
Definition str_of_nat (n : nat) : string := NilZero.string_of_uint (Nat.to_uint n).
Definition str_of_Z (z : Z) : string := NilZero.string_of_int (Z.to_int z).

(** [s.upper()] on ASCII text. *)
Definition upper_ascii (c : ascii) : ascii :=
  let n := nat_of_ascii c in
  if ((97 <=? n) && (n <=? 122))%nat then ascii_of_nat (n - 32) else c.

Fixpoint upper (s : string) : string :=
  match s with
  | EmptyString => EmptyString
  | String c s' => String (upper_ascii c) (upper s')
  end.

(** [s.replace(old, new)] for a non-empty [old]: occurrences are replaced
    from the left and do not overlap.  [skip] counts the characters of the
    occurrence just replaced that are still to be dropped. *)
Fixpoint replace_from (skip : nat) (old new s : string) : string :=
  match s with
  | EmptyString => EmptyString
  | String c s' =>
      match skip with
      | S k => replace_from k old new s'
      | O =>
          if prefix old s
          then new ++ replace_from (String.length old - 1) old new s'
          else String c (replace_from 0 old new s')
      end
  end.

Definition replace (s old new : string) : string := replace_from 0 old new s.

(** [s[:n]]. *)
Definition slice_to (n : nat) (s : string) : string := substring 0 n s.

(** [d.get(k, default)] once the key has been read as an option. *)
Definition get_or {A : Type} (default : A) (o : option A) : A :=
  match o with
  | Some a => a
  | None => default
  end.

(** A value as [yaml.safe_load] builds it.  Floats are IEEE doubles. *)
Inductive pyval : Type :=
| VNone
| VBool (b : bool)
| VInt (z : Z)
| VFloat (f : spec_float)
| VStr (s : string)
| VList (l : list pyval)
| VDict (d : list (pyval * pyval)).

(** [isinstance(v, float)] and [isinstance(v, int)]; [bool] is a subclass of
    [int] in Python, so a boolean is an instance of [int]. *)
Definition isinstance_float (v : pyval) : bool :=
  match v with
  | VFloat _ => true
  | _ => false
  end.

Definition isinstance_int (v : pyval) : bool :=
  match v with
  | VInt _ | VBool _ => true
  | _ => false
  end.

(** Truth value of a value, as [if v:] tests it. *)
Definition truthy (v : pyval) : bool :=
  match v with
  | VNone => false
  | VBool b => b
  | VInt z => negb (z =? 0)%Z
  | VFloat (S754_zero _) => false
  | VFloat _ => true
  | VStr s => negb (s =? "")
  | VList l => match l with [] => false | _ => true end
  | VDict d => match d with [] => false | _ => true end
  end.

(** [o == s] for an optional value [o] read with [d.get(k)] and a string
    literal [s]: only a string equals a string. *)
Definition eq_str (o : option pyval) (s : string) : bool :=
  match o with
  | Some (VStr t) => t =? s
  | _ => false
  end.

(** The two renderings of the interpreter that are not rebuilt here: the
    shortest round-trip [repr] of a float and the quoted [repr] of a
    string.  Every definition below that formats a value takes them from
    this class. *)
Class Runtime : Type := {
  repr_float : spec_float -> string;
  repr_str : string -> string
}.

Section Rendering.
Context {rt : Runtime}.

(** [repr(v)]. *)
Fixpoint repr (v : pyval) : string :=
  match v with
  | VNone => "None"
  | VBool true => "True"
  | VBool false => "False"
  | VInt z => str_of_Z z
  | VFloat f => repr_float f
  | VStr s => repr_str s
  | VList l => "[" ++ String.concat ", " (map repr l) ++ "]"
  | VDict d =>
      "{" ++ String.concat ", "
               (map (fun kv => match kv with
                               | (k, x) => repr k ++ ": " ++ repr x
                               end) d) ++ "}"
  end.

(** [str(v)], which is also what an f-string field [{v}] inserts. *)
Definition str (v : pyval) : string :=
  match v with
  | VStr s => s
  | _ => repr v
  end.
End Rendering.

(** *** Dictionaries

    A Python [dict] keeps its keys in insertion order, and an assignment to
    a key it already holds replaces the value in place. *)
Definition dict (V : Type) : Type := list (string * V).

Fixpoint dict_get {V : Type} (d : dict V) (k : string) : option V :=
  match d with
  | [] => None
  | (k', v) :: d' => if k' =? k then Some v else dict_get d' k
  end.

Fixpoint dict_set {V : Type} (d : dict V) (k : string) (v : V) : dict V :=
  match d with
  | [] => [(k, v)]
  | (k', v') :: d' =>
      if k' =? k then (k', v) :: d' else (k', v') :: dict_set d' k v
  end.

(** [l.append(x)]. *)
Definition list_append {A : Type} (l : list A) (x : A) : list A := (l ++ [x])%list.

(** [enumerate(l)], counting from [start]. *)
Fixpoint enumerate_from {A : Type} (start : nat) (l : list A) : list (nat * A) :=
  match l with
  | [] => []
  | x :: l' => (start, x) :: enumerate_from (S start) l'
  end.

Definition enumerate {A : Type} (l : list A) : list (nat * A) := enumerate_from 0 l.

End Py.
Import Py.

(** ** The event document

    One record per mapping of the document, one optional field per key the
    generators read.  A field that the code only formats or compares is a
    [pyval]; a field on which it calls a string method is a string. *)

Module Model.

Record HubAction : Type := {
  ha_address : option string;
  ha_args : option (list pyval)
}.

Record Cue : Type := {
  cue_number : option pyval;
  cue_id : option pyval;
  cue_name : option string;
  cue_type : option string;
  cue_timing : option pyval;
  cue_hub_actions : option (list HubAction)
}.

Record Microphone : Type := {
  mic_id : option string;
  mic_type : option pyval;
  mic_model : option pyval;
  mic_input_channel : option pyval;
  mic_performer : option pyval;
  mic_gain_db : option pyval
}.

Record AudioRecording : Type := {
  arec_enabled : option pyval;
  arec_format : option pyval;
  arec_sample_rate : option pyval
}.

Record Audio : Type := {
  audio_microphones : option (list Microphone);
  audio_recording : option AudioRecording
}.

Record Camera : Type := {
  cam_id : option string;
  cam_position : option pyval;
  cam_shot : option pyval;
  cam_resolution : option pyval
}.

Record VideoRecording : Type := {
  vrec_enabled : option pyval;
  vrec_format : option pyval;
  vrec_bitrate : option pyval
}.

Record Video : Type := {
  video_cameras : option (list Camera);
  video_recording : option VideoRecording
}.

Record LightingPreset : Type := {
  preset_name : option string;
  preset_description : option pyval
}.

Record Lighting : Type := {
  lighting_controller : option pyval;
  lighting_universe : option pyval;
  lighting_presets : option (list LightingPreset)
}.

(** An entry of [network]: the keys read from any of [hub], [qlab],
    [companion], [touchdesigner] and [lighting_console]. *)
Record Endpoint : Type := {
  host : option pyval;
  port : option pyval;
  passcode : option pyval;
  osc_listen_port : option pyval;
  protocol : option pyval
}.

Record Network : Type := {
  net_hub : option Endpoint;
  net_qlab : option Endpoint;
  net_companion : option Endpoint;
  net_touchdesigner : option Endpoint;
  net_lighting_console : option Endpoint
}.

Record Performers : Type := { performers_count : option pyval }.

Record Metadata : Type := { metadata_version : option pyval }.

Record Event : Type := {
  event_type : option pyval;
  event_name : option pyval;
  venue : option pyval;
  performers : option Performers;
  metadata : option Metadata;
  network : option Network;
  audio : option Audio;
  video : option Video;
  lighting : option Lighting;
  cues : option (list Cue)
}.

(** The empty mapping [{}] read at each of these types. *)
Definition empty_Endpoint : Endpoint :=
  {| host := None; port := None; passcode := None;
     osc_listen_port := None; protocol := None |}.
Definition empty_Network : Network :=
  {| net_hub := None; net_qlab := None; net_companion := None;
     net_touchdesigner := None; net_lighting_console := None |}.
Definition empty_Audio : Audio :=
  {| audio_microphones := None; audio_recording := None |}.
Definition empty_AudioRecording : AudioRecording :=
  {| arec_enabled := None; arec_format := None; arec_sample_rate := None |}.
Definition empty_Video : Video :=
  {| video_cameras := None; video_recording := None |}.
Definition empty_VideoRecording : VideoRecording :=
  {| vrec_enabled := None; vrec_format := None; vrec_bitrate := None |}.
Definition empty_Lighting : Lighting :=
  {| lighting_controller := None; lighting_universe := None;
     lighting_presets := None |}.
Definition empty_Performers : Performers := {| performers_count := None |}.
Definition empty_Metadata : Metadata := {| metadata_version := None |}.

End Model.
Import Model.

(** ** [generators/companion_generator.py] *)

Module CompanionGenerator.

Record Palette : Type := { bg : Z; text : Z }.

(** Button colour palette, [R + (G * 256) + (B * 65536)]. *)
Definition COLORS_blank : Palette := {| bg := 0; text := 5592405 |}.

Definition COLORS : dict Palette :=
  [ ("lighting", {| bg := 204 + (153 * 256) + (0 * 65536); text := 0 |});
    ("audio",    {| bg := 0 + (153 * 256) + (204 * 65536); text := 0 |});
    ("video",    {| bg := 51 + (102 * 256) + (204 * 65536); text := 16777215 |});
    ("system",   {| bg := 153 + (51 * 256) + (153 * 65536); text := 16777215 |});
    ("go",       {| bg := 0 + (204 * 256) + (0 * 65536); text := 0 |});
    ("stop",     {| bg := 204 + (0 * 256) + (0 * 65536); text := 16777215 |});
    ("header",   {| bg := 40 + (40 * 256) + (40 * 65536); text := 16777215 |});
    ("blank",    COLORS_blank) ]%Z.

(** The JSON objects of the page export. *)
Record Options : Type := { path : string; value : option pyval }.

Record Action : Type := { actionId : string; options : Options }.

Record Style : Type := {
  style_text : string;
  size : string;
  color : Z;
  bgcolor : Z;
  alignment : string;
  show_topbar : bool;
  textExpression : bool
}.

Record Step : Type := { down : list Action; up : list Action }.

Record Button : Type := {
  button_type : string;
  enabled : bool;
  style : Style;
  steps : dict Step;
  feedbacks : list Action
}.

Record GridSize : Type := { columns : nat; rows : nat }.

Record Page : Type := { name : string; gridSize : GridSize; buttons : dict Button }.

Record ConnectionConfig : Type := {
  config_host : pyval;
  config_port : pyval;
  send_enabled : bool
}.

Record Connection : Type := {
  connection_id : string;
  module : string;
  label : string;
  config : ConnectionConfig
}.

Record Config : Type := {
  version : string;
  export_type : string;
  config_event_type : pyval;
  config_event_name : pyval;
  pages : dict Page;
  connections : list Connection
}.

(** The generator object: the document and the grid of a Stream Deck XL. *)
Record t : Type := { event : Event; grid_cols : nat; grid_rows : nat }.

Definition __init__ (event_data : Event) : t :=
  {| event := event_data; grid_cols := 8; grid_rows := 4 |}.

(** The key [f"{row},{col}"] of a button. *)
Definition coord (row col : nat) : string :=
  str_of_nat row ++ "," ++ str_of_nat col.

(** [_make_button(text, style, size, actions)]. *)
Definition _make_button (text style size : string)
    (actions : option (list Action)) : Button :=
  let palette := get_or COLORS_blank (dict_get COLORS style) in
  {| button_type := "button";
     enabled := true;
     style := {| style_text := text;
                 size := size ++ "px";
                 color := palette.(CompanionGenerator.text);
                 bgcolor := palette.(bg);
                 alignment := "center";
                 show_topbar := negb (style =? "header");
                 textExpression := false |};
     steps := match actions with
              | Some (a :: l) => dict_set [] "step0" {| down := a :: l; up := [] |}
              | _ => []
              end;
     feedbacks := [] |}.

Definition _make_go_button : Button :=
  _make_button ("GO" ++ nl ++ "(QLab)") "go" "14" None.

Definition _make_stop_button : Button :=
  _make_button ("STOP" ++ nl ++ "(QLab)") "stop" "14" None.

(** One turn of the loop of [_hub_actions_to_osc]. *)
Definition hub_action_step {rt : Runtime} (actions : list Action) (ha : HubAction)
    : list Action :=
  let address := get_or "" (ha_address ha) in
  match ha_args ha with
  | Some (arg :: _) =>
      if isinstance_float arg then
        list_append actions
          {| actionId := "osc:send_float";
             options := {| path := address; value := Some arg |} |}
      else if isinstance_int arg then
        list_append actions
          {| actionId := "osc:send_integer";
             options := {| path := address; value := Some arg |} |}
      else
        list_append actions
          {| actionId := "osc:send_string";
             options := {| path := address; value := Some (VStr (str arg)) |} |}
  | _ =>
      list_append actions
        {| actionId := "osc:send_no_args";
           options := {| path := address; value := None |} |}
  end.

Definition _hub_actions_to_osc {rt : Runtime} (hub_actions : list HubAction)
    : list Action :=
  fold_left hub_action_step hub_actions [].

Definition _make_cue_button {rt : Runtime} (cue : Cue) : Button :=
  let cue_type := get_or "system" (cue_type cue) in
  let cue_number := get_or (VStr "???") (cue_number cue) in
  let cue_name := get_or "Untitled" (cue_name cue) in
  let hub_actions := get_or [] (cue_hub_actions cue) in
  let display_name := slice_to 16 cue_name in
  let actions :=
    match hub_actions with
    | _ :: _ => _hub_actions_to_osc hub_actions
    | [] => [ {| actionId := "osc:send_no_args";
                 options := {| path := "/cue/" ++ str cue_number ++ "/start";
                               value := None |} |} ]
    end in
  _make_button ("Q" ++ str cue_number ++ nl ++ display_name) cue_type "12"
    (Some actions).

(** One turn of each of the three cue loops of [_build_show_control_page];
    the state is the button map with the [row] and [col] variables. *)
Definition place_cue {rt : Runtime} (self : t) (st : dict Button * nat * nat)
    (cue : Cue) : dict Button * nat * nat :=
  let '(buttons, row, col) := st in
  let '(row, col) :=
    if (grid_cols self <=? col)%nat then (row + 1, 0) else (row, col) in
  (dict_set buttons (coord row col) (_make_cue_button cue), row, col + 1).

(** The button map after the header row has been written. *)
Definition show_control_header {rt : Runtime} (self : t) : dict Button :=
  let buttons := [] in
  let buttons :=
    dict_set buttons "0,0"
      (_make_button
         (str (get_or (VStr "Show") (event_name (event self))) ++ nl ++ "CONTROL")
         "header" "14" None) in
  let buttons := dict_set buttons "0,1" (_make_button "PRE-SHOW" "header" "14" None) in
  let buttons := dict_set buttons "0,4" (_make_button "SHOW" "header" "14" None) in
  let buttons := dict_set buttons "0,6" (_make_button "POST-SHOW" "header" "14" None) in
  let buttons := dict_set buttons "0,2" _make_go_button in
  let buttons := dict_set buttons "0,3" _make_stop_button in
  buttons.

Definition pre_show_of (cues : list Cue) : list Cue :=
  filter (fun c => eq_str (cue_timing c) "pre-show") cues.

Definition show_cues_of (cues : list Cue) : list Cue :=
  filter (fun c => negb (eq_str (cue_timing c) "pre-show"
                         || eq_str (cue_timing c) "post-show")) cues.

Definition post_show_of (cues : list Cue) : list Cue :=
  filter (fun c => eq_str (cue_timing c) "post-show") cues.

(** The button map after the pre-show loop, after the show loop and after
    the post-show loop. *)
Definition after_pre_show {rt : Runtime} (self : t) : dict Button :=
  let cues := get_or [] (cues (event self)) in
  let '(buttons, _, _) :=
    fold_left (place_cue self) (pre_show_of cues) (show_control_header self, 1, 0) in
  buttons.

Definition after_show {rt : Runtime} (self : t) : dict Button :=
  let cues := get_or [] (cues (event self)) in
  let '(buttons, _, _) :=
    fold_left (place_cue self) (show_cues_of cues) (after_pre_show self, 2, 0) in
  buttons.

Definition after_post_show {rt : Runtime} (self : t) : dict Button :=
  let cues := get_or [] (cues (event self)) in
  let '(buttons, _, _) :=
    fold_left (place_cue self) (post_show_of cues) (after_show self, 3, 0) in
  buttons.

Definition _build_show_control_page {rt : Runtime} (self : t) : Page :=
  {| name := "Show Control";
     gridSize := {| columns := grid_cols self; rows := grid_rows self |};
     buttons := after_post_show self |}.

(** The camera loop of [_build_av_control_page]. *)
Definition camera_button {rt : Runtime} (i : nat) (cam : Camera) : Button :=
  let cam_id := get_or ("cam" ++ str_of_nat (i + 1)) (cam_id cam) in
  let shot := get_or (VStr "") (cam_shot cam) in
  let scene_name := replace cam_id "cam" "Camera" in
  _make_button (upper cam_id ++ nl ++ str shot) "video" "14"
    (Some [ {| actionId := "osc:send_no_args";
               options := {| path := "/obs/scene/" ++ scene_name; value := None |} |};
            {| actionId := "osc:send_no_args";
               options := {| path := "/" ++ cam_id ++ "/preset/recall/1";
                             value := None |} |} ]).

Definition camera_step {rt : Runtime} (buttons : dict Button) (ic : nat * Camera)
    : dict Button :=
  let '(i, cam) := ic in
  dict_set buttons (coord 1 (i + 1)) (camera_button i cam).

(** The microphone loop: a mute button, and an unmute button when its
    column fits the grid. *)
Definition mute_path {rt : Runtime} (i : nat) (mic : Microphone) : string :=
  let channel := get_or (VInt (Z.of_nat (i + 1))) (mic_input_channel mic) in
  "/avantis/ch/" ++ str channel ++ "/mix/mute".

Definition mute_button {rt : Runtime} (i : nat) (mic : Microphone) : Button :=
  let mic_id := get_or ("mic" ++ str_of_nat (i + 1)) (mic_id mic) in
  _make_button (upper mic_id ++ nl ++ "MUTE") "audio" "14"
    (Some [ {| actionId := "osc:send_integer";
               options := {| path := mute_path i mic; value := Some (VInt 1) |} |} ]).

Definition unmute_button {rt : Runtime} (i : nat) (mic : Microphone) : Button :=
  let mic_id := get_or ("mic" ++ str_of_nat (i + 1)) (mic_id mic) in
  _make_button (upper mic_id ++ nl ++ "UNMUTE") "go" "14"
    (Some [ {| actionId := "osc:send_integer";
               options := {| path := mute_path i mic; value := Some (VInt 0) |} |} ]).

Definition microphone_step {rt : Runtime} (self : t) (len_mics : nat)
    (buttons : dict Button) (im : nat * Microphone) : dict Button :=
  let '(i, mic) := im in
  let buttons := dict_set buttons (coord 2 (i + 1)) (mute_button i mic) in
  let unmute_col := i + 1 + len_mics in
  if (unmute_col <? grid_cols self)%nat
  then dict_set buttons (coord 2 unmute_col) (unmute_button i mic)
  else buttons.

(** The lighting-preset loop, over [presets[:7]]. *)
Definition preset_button (i : nat) (preset : LightingPreset) : Button :=
  let preset_name := get_or ("Preset " ++ str_of_nat (i + 1)) (preset_name preset) in
  let exec_num := i + 1 in
  let display :=
    if (10 <? String.length preset_name)%nat
    then replace preset_name " " nl
    else preset_name in
  _make_button display "lighting" "11"
    (Some [ {| actionId := "osc:send_no_args";
               options := {| path := "/lights/exec/" ++ str_of_nat exec_num;
                             value := None |} |} ]).

Definition preset_step (buttons : dict Button) (ip : nat * LightingPreset)
    : dict Button :=
  let '(i, preset) := ip in
  dict_set buttons (coord 3 (i + 1)) (preset_button i preset).

(** The button map of the A/V page after each of its three rows. *)
Definition after_cameras {rt : Runtime} (self : t) : dict Button :=
  let buttons := [] in
  let buttons :=
    dict_set buttons "0,0"
      (_make_button ("A/V" ++ nl ++ "CONTROL") "header" "14" None) in
  let buttons := dict_set buttons "1,0" (_make_button "CAMERAS" "header" "12" None) in
  let cameras := get_or [] (video_cameras (get_or empty_Video (video (event self)))) in
  fold_left camera_step (enumerate cameras) buttons.

Definition after_microphones {rt : Runtime} (self : t) : dict Button :=
  let buttons := after_cameras self in
  let buttons := dict_set buttons "2,0" (_make_button "AUDIO" "header" "12" None) in
  let mics := get_or [] (audio_microphones (get_or empty_Audio (audio (event self)))) in
  fold_left (microphone_step self (List.length mics)) (enumerate mics) buttons.

Definition after_presets {rt : Runtime} (self : t) : dict Button :=
  let buttons := after_microphones self in
  let buttons := dict_set buttons "3,0" (_make_button "LIGHTING" "header" "12" None) in
  let presets :=
    get_or [] (lighting_presets (get_or empty_Lighting (lighting (event self)))) in
  fold_left preset_step (enumerate (firstn 7 presets)) buttons.

Definition _build_av_control_page {rt : Runtime} (self : t) : Page :=
  {| name := "A/V Control";
     gridSize := {| columns := grid_cols self; rows := grid_rows self |};
     buttons := after_presets self |}.

Definition _build_osc_connection (self : t) : Connection :=
  let network := get_or empty_Network (network (event self)) in
  let hub := get_or empty_Endpoint (net_hub network) in
  {| connection_id := "osc_hub";
     module := "generic-osc";
     label := "Production Hub";
     config := {| config_host := get_or (VStr "127.0.0.1") (host hub);
                  config_port := get_or (VInt 9000) (port hub);
                  send_enabled := true |} |}.

Definition generate {rt : Runtime} (self : t) : Config :=
  let pages := [] in
  let pages := dict_set pages "page_1" (_build_show_control_page self) in
  let pages := dict_set pages "page_2" (_build_av_control_page self) in
  {| version := "4.2.0";
     export_type := "page_export";
     config_event_type := get_or (VStr "unknown") (event_type (event self));
     config_event_name := get_or (VStr "Untitled Event") (event_name (event self));
     pages := pages;
     connections := [_build_osc_connection self] |}.

End CompanionGenerator.

(** ** [generators/checklist_generator.py] *)

Module ChecklistGenerator.

(** The reading of the clock, [datetime.now()], is an argument of the
    functions that use it. *)
Record datetime : Type := { year : nat; month : nat; day : nat }.

Definition zero_pad (width : nat) (s : string) : string :=
  String.concat "" (repeat "0" (width - String.length s)) ++ s.

(** [now.strftime("%Y-%m-%d")]: year, month and day in decimal, padded with
    zeros to four, two and two digits.  (For a year below 1000 the padding
    of [%Y] depends on the C library; nothing below depends on it.) *)
Definition strftime_Ymd (now : datetime) : string :=
  zero_pad 4 (str_of_nat (year now)) ++ "-" ++
  zero_pad 2 (str_of_nat (month now)) ++ "-" ++
  zero_pad 2 (str_of_nat (day now)).

(** A triple-quoted block, one string per line of the block; the block
    ends with a line feed. *)
Definition block (lines : list string) : string := String.concat nl lines ++ nl.

(** ["\n".join(lines)]. *)
Definition join_lines (lines : list string) : string := String.concat nl lines.

Record t : Type := { event : Event }.

Definition __init__ (event_data : Event) : t := {| event := event_data |}.

Section Sections.
Context {rt : Runtime}.

Definition _header (self : t) (now : datetime) : string :=
  let event_name := get_or (VStr "Untitled Event") (event_name (event self)) in
  let event_type := get_or (VStr "unknown") (event_type (event self)) in
  let venue := get_or (VStr "TBD") (venue (event self)) in
  let performers :=
    get_or (VInt 0)
      (performers_count (get_or empty_Performers (performers (event self)))) in
  let date := strftime_Ymd now in
  block
    [ "# Setup Checklist: " ++ str event_name;
      "";
      "| Field | Value |";
      "|-------|-------|";
      "| Event Type | `" ++ str event_type ++ "` |";
      "| Venue | " ++ str venue ++ " |";
      "| Performers | " ++ str performers ++ " |";
      "| Generated | " ++ date ++ " |";
      "| Template Version | " ++
        str (get_or (VStr "1.0")
               (metadata_version (get_or empty_Metadata (metadata (event self)))))
        ++ " |";
      "";
      "---";
      "" ].

Definition hardware_mic_step (lines : list string) (mic : Microphone)
    : list string :=
  let mic_id := get_or "unknown" (mic_id mic) in
  let mic_type := get_or (VStr "unknown") (mic_type mic) in
  let model := get_or (VStr "TBD") (mic_model mic) in
  let channel := get_or (VStr "?") (mic_input_channel mic) in
  let performer := get_or (VStr "TBD") (mic_performer mic) in
  lines ++
  [ "- [ ] **" ++ mic_id ++ "** (" ++ str mic_type ++ "): " ++ str model;
    "  - Assigned to: " ++ str performer;
    "  - Input channel: " ++ str channel;
    "  - Battery check: fresh batteries installed" ].

Definition hardware_cam_step (lines : list string) (cam : Camera)
    : list string :=
  let cam_id := get_or "unknown" (cam_id cam) in
  let position := get_or (VStr "TBD") (cam_position cam) in
  let shot := get_or (VStr "TBD") (cam_shot cam) in
  let resolution := get_or (VStr "1080p") (cam_resolution cam) in
  lines ++
  [ "- [ ] **" ++ cam_id ++ "** positioned at " ++ str position;
    "  - Shot type: " ++ str shot;
    "  - Resolution: " ++ str resolution;
    "  - Focus and framing verified" ].

Definition _hardware_setup (self : t) : string :=
  let mics := get_or [] (audio_microphones (get_or empty_Audio (audio (event self)))) in
  let cameras := get_or [] (video_cameras (get_or empty_Video (video (event self)))) in
  let lines := [ "## 1. Hardware Setup"; ""; "### Audio"; "" ] in
  let lines := fold_left hardware_mic_step mics lines in
  let recording :=
    get_or empty_AudioRecording
      (audio_recording (get_or empty_Audio (audio (event self)))) in
  let lines :=
    if truthy (get_or VNone (arec_enabled recording))
    then list_append lines
           ("- [ ] Audio recording configured (" ++
            str (get_or (VStr "wav") (arec_format recording)) ++ ", " ++
            str (get_or (VInt 48000) (arec_sample_rate recording)) ++ "Hz)")
    else lines in
  let lines := list_append lines "" in
  let lines := list_append lines "### Video" in
  let lines := list_append lines "" in
  let lines := fold_left hardware_cam_step cameras lines in
  let vid_recording :=
    get_or empty_VideoRecording
      (video_recording (get_or empty_Video (video (event self)))) in
  let lines :=
    if truthy (get_or VNone (vrec_enabled vid_recording))
    then list_append lines
           ("- [ ] Video recording configured (" ++
            str (get_or (VStr "h264") (vrec_format vid_recording)) ++ ", " ++
            str (get_or (VStr "20Mbps") (vrec_bitrate vid_recording)) ++ ")")
    else lines in
  let lines := list_append lines "" in
  join_lines lines.

Definition _network_setup (self : t) : string :=
  let network := get_or empty_Network (network (event self)) in
  let hub := get_or empty_Endpoint (net_hub network) in
  let qlab := get_or empty_Endpoint (net_qlab network) in
  let companion := get_or empty_Endpoint (net_companion network) in
  let td := get_or empty_Endpoint (net_touchdesigner network) in
  let lighting := get_or empty_Endpoint (net_lighting_console network) in
  block
    [ "## 2. Network Configuration";
      "";
      "- [ ] All devices on same network / VLAN";
      "- [ ] Production Hub running at `" ++
        str (get_or (VStr "127.0.0.1") (host hub)) ++ ":" ++
        str (get_or (VInt 9000) (port hub)) ++ "`";
      "- [ ] Hub dashboard accessible at `http://" ++
        str (get_or (VStr "127.0.0.1") (host hub)) ++ ":8080/`";
      "- [ ] All hub drivers connected (check `/health` endpoint)";
      "- [ ] QLab machine reachable at `" ++
        str (get_or (VStr "127.0.0.1") (host qlab)) ++ ":" ++
        str (get_or (VInt 53000) (port qlab)) ++ "`";
      "- [ ] Companion reachable at `" ++
        str (get_or (VStr "127.0.0.1") (host companion)) ++ ":" ++
        str (get_or (VInt 8000) (port companion)) ++ "`";
      "- [ ] TouchDesigner OSC listening on port `" ++
        str (get_or (VInt 12000) (osc_listen_port td)) ++ "`";
      "- [ ] Lighting console at `" ++
        str (get_or (VStr "TBD") (host lighting)) ++ ":" ++
        str (get_or (VStr "TBD") (port lighting)) ++ "` (" ++
        str (get_or (VStr "OSC") (protocol lighting)) ++ ")";
      "- [ ] Firewall rules allow OSC traffic (UDP) between all devices";
      "- [ ] Network switch / router powered and verified";
      "" ].

Definition _software_config (self : t) : string :=
  let network := get_or empty_Network (network (event self)) in
  let hub := get_or empty_Endpoint (net_hub network) in
  let qlab_passcode :=
    get_or (VStr "1234") (passcode (get_or empty_Endpoint (net_qlab network))) in
  let hub_port := get_or (VInt 9000) (port hub) in
  let td_port :=
    get_or (VInt 12000)
      (osc_listen_port (get_or empty_Endpoint (net_touchdesigner network))) in
  block
    [ "## 3. Software Configuration";
      "";
      "### Production Hub";
      "- [ ] Hub process running (`npm start` or systemd service)";
      "- [ ] All device drivers connected (check dashboard at `:8080`)";
      "- [ ] Hub OSC port `" ++ str hub_port ++ "` receiving traffic";
      "- [ ] Systems check passing (`/system/check`)";
      "";
      "### QLab";
      "- [ ] QLab workspace open";
      "- [ ] OSC passcode set to `" ++ str qlab_passcode ++ "`";
      "- [ ] Cue list built (run `standard_recital_qlab_cues.py`)";
      "- [ ] Network cues targeting hub verified (check destination host/port)";
      "- [ ] All cues verified in cue list";
      "";
      "### Companion";
      "- [ ] Companion running and accessible via web UI";
      "- [ ] Page configuration imported (`companion_config.json`)";
      "- [ ] OSC connection to Production Hub verified (test a cue button)";
      "- [ ] Stream Deck / control surface connected and showing buttons";
      "";
      "### TouchDesigner";
      "- [ ] TouchDesigner project open";
      "- [ ] Setup script executed (`touchdesigner_setup.py`)";
      "- [ ] Camera inputs recognized and showing video";
      "- [ ] OSC input receiving from hub on port `" ++ str td_port ++ "`";
      "- [ ] Video switch responding to cue triggers";
      "" ].

Definition sound_check_step (lines : list string) (mic : Microphone)
    : list string :=
  let mic_id := get_or "unknown" (mic_id mic) in
  let performer := get_or (VStr "TBD") (mic_performer mic) in
  let gain := get_or (VInt (-12)) (mic_gain_db mic) in
  let channel := get_or (VStr "?") (mic_input_channel mic) in
  lines ++
  [ "- [ ] **" ++ mic_id ++ "** (" ++ str performer ++ ")";
    "  - Channel " ++ str channel ++ " signal present";
    "  - Gain at " ++ str gain ++ "dB, adjust to taste";
    "  - No feedback at performance levels";
    "  - Monitor mix set for performer" ].

Definition _sound_check (self : t) : string :=
  let mics := get_or [] (audio_microphones (get_or empty_Audio (audio (event self)))) in
  let lines := [ "## 4. Sound Check"; "" ] in
  let lines := fold_left sound_check_step mics lines in
  let lines := list_append lines "- [ ] Main mix balanced" in
  let lines := list_append lines "- [ ] Recording levels verified (peaks below -6dB)" in
  let lines := list_append lines "- [ ] Mute/unmute cues tested from Companion" in
  let lines := list_append lines "" in
  join_lines lines.

Definition video_check_step (lines : list string) (cam : Camera)
    : list string :=
  let cam_id := get_or "unknown" (cam_id cam) in
  let shot := get_or (VStr "TBD") (cam_shot cam) in
  lines ++
  [ "- [ ] **" ++ cam_id ++ "** (" ++ str shot ++ " shot)";
    "  - Image quality verified";
    "  - White balance set";
    "  - Focus locked" ].

Definition _video_check (self : t) : string :=
  let cameras := get_or [] (video_cameras (get_or empty_Video (video (event self)))) in
  let lines := [ "## 5. Video Check"; "" ] in
  let lines := fold_left video_check_step cameras lines in
  let lines := list_append lines "- [ ] Video switch tested (all camera cuts clean)" in
  let lines := list_append lines "- [ ] Recording test: start/stop verified" in
  let lines := list_append lines "- [ ] Output feed confirmed on program monitor" in
  let lines := list_append lines "" in
  join_lines lines.

Definition lighting_check_step (lines : list string) (preset : LightingPreset)
    : list string :=
  let name := get_or "Unknown" (preset_name preset) in
  let desc := get_or (VStr "") (preset_description preset) in
  let lines := list_append lines ("- [ ] Preset **" ++ name ++ "** verified") in
  if truthy desc then list_append lines ("  - " ++ str desc) else lines.

Definition _lighting_check (self : t) : string :=
  let lighting := get_or empty_Lighting (lighting (event self)) in
  let presets := get_or [] (lighting_presets lighting) in
  let lines :=
    [ "## 6. Lighting Check";
      "";
      "- [ ] Lighting console: " ++
        str (get_or (VStr "TBD") (lighting_controller lighting));
      "- [ ] Universe: " ++ str (get_or (VInt 1) (lighting_universe lighting));
      "" ] in
  let lines := fold_left lighting_check_step presets lines in
  let lines :=
    list_append lines "- [ ] All lighting cues fire correctly from QLab/Companion" in
  let lines := list_append lines "- [ ] Fade times feel appropriate" in
  let lines := list_append lines "" in
  join_lines lines.

(** The line of one cue in the cue sequence. *)
Definition cue_line (cue : Cue) : string :=
  let number := get_or (VStr "???") (cue_number cue) in
  let name := get_or "Untitled" (cue_name cue) in
  let timing := get_or (VStr "manual") (cue_timing cue) in
  let cue_type := get_or "unknown" (cue_type cue) in
  "- [ ] **Q" ++ str number ++ "** " ++ name ++ " [" ++ cue_type ++ "] @ " ++
  str timing.

(** The lines [_show_time] starts from. *)
Definition show_time_heading : list string :=
  [ "## 7. Show Time Checklist";
    "";
    "### 15 Minutes Before";
    "- [ ] All systems powered and stable";
    "- [ ] Recording media has sufficient space";
    "- [ ] Companion page on Show Control";
    "- [ ] QLab playhead on first cue";
    "";
    "### 5 Minutes Before";
    "- [ ] House to half (cue ready)";
    "- [ ] Performers miked and in position";
    "- [ ] Stage manager confirms ready";
    "";
    "### Cue Sequence";
    "" ].

Definition _show_time (self : t) : string :=
  let cues := get_or [] (cues (event self)) in
  let lines := show_time_heading in
  let lines := fold_left (fun lines cue => list_append lines (cue_line cue)) cues lines in
  let lines := list_append lines "" in
  join_lines lines.

Definition _post_show (self : t) : string :=
  block
    [ "## 8. Post-Show";
      "";
      "- [ ] Recording stopped and files verified";
      "- [ ] All recordings backed up to secondary media";
      "- [ ] Microphones powered down, batteries removed";
      "- [ ] Cameras powered down";
      "- [ ] Lighting returned to house preset";
      "- [ ] QLab workspace saved";
      "- [ ] Companion configuration saved";
      "- [ ] Network equipment powered down (if applicable)";
      "- [ ] Venue walkthrough - all gear accounted for";
      "" ].

Definition _emergency_contacts (self : t) : string :=
  block
    [ "## 9. Emergency Procedures";
      "";
      "- [ ] Know location of circuit breaker panel";
      "- [ ] Backup audio path identified (direct mic to speaker)";
      "- [ ] Manual camera override procedure known";
      "- [ ] Lighting console manual override accessible";
      "- [ ] Contact info for:";
      "  - [ ] Venue technical contact: _______________";
      "  - [ ] Audio engineer: _______________";
      "  - [ ] Video operator: _______________";
      "  - [ ] Lighting operator: _______________";
      "";
      "---";
      "*Generated by the Production Event Template System*" ].

Definition generate (self : t) (now : datetime) : string :=
  let sections :=
    [ _header self now;
      _hardware_setup self;
      _network_setup self;
      _software_config self;
      _sound_check self;
      _video_check self;
      _lighting_check self;
      _show_time self;
      _post_show self;
      _emergency_contacts self ] in
  join_lines sections.

End Sections.

End ChecklistGenerator.

(** ** [generate.py] *)

Module Generate.

(** How a call ends: [sys.exit(code)] or a returned value. *)
Inductive outcome (A : Type) : Type :=
| Exit (code : Z)
| Return (a : A).
Arguments Exit {A} code.
Arguments Return {A} a.

(** The files the process can read: a path is mapped to the mapping that
    [yaml.safe_load] builds from the file, when the file exists. *)
Definition filesystem : Type := string -> option Event.

Definition is_some {A : Type} (o : option A) : bool :=
  match o with
  | Some _ => true
  | None => false
  end.

(** [required_keys], each with the test [key in data]. *)
Definition required_keys : list (string * (Event -> bool)) :=
  [ ("event_type", fun data => is_some (event_type data));
    ("cues", fun data => is_some (cues data)) ].

Definition known_prefixes : list string :=
  [ "/avantis"; "/lights"; "/obs"; "/cam"; "/td"; "/fade"; "/system" ].

Section LoadEvent.
Context {rt : Runtime}.

(** The body of the inner loop over the hub actions of a cue; the state
    is the printed lines with [has_hub_actions]. *)
Definition check_action (cue : Cue) (st : list string * bool)
    (action : HubAction) : list string * bool :=
  let '(out, _) := st in
  let has_hub_actions := true in
  let address := get_or "" (ha_address action) in
  if negb (existsb (fun p => prefix p address) known_prefixes)
  then (list_append out
          ("  Warning: cue " ++ str (get_or VNone (cue_id cue)) ++
           ": hub_action address " ++
           "'" ++ address ++ "' does not match any known hub prefix"),
        has_hub_actions)
  else (out, has_hub_actions).

Definition check_cue (st : list string * bool) (cue : Cue) : list string * bool :=
  fold_left (check_action cue) (get_or [] (cue_hub_actions cue)) st.

(** [load_event(yaml_path)]: the lines printed and how the call ends. *)
Definition load_event (fs : filesystem) (yaml_path : string)
    : list string * outcome Event :=
  match fs yaml_path with
  | None => ([ "Error: Template file not found: " ++ yaml_path ], Exit 1)
  | Some data =>
      match find (fun kp => negb (snd kp data)) required_keys with
      | Some (key, _) =>
          ([ "Error: Missing required key '" ++ key ++ "' in template" ], Exit 1)
      | None =>
          let '(out, has_hub_actions) :=
            fold_left check_cue (get_or [] (cues data)) ([], false) in
          let out :=
            if has_hub_actions
               && negb (is_some (net_hub (get_or empty_Network (network data))))
            then list_append out
                   ("  Warning: Cues have hub_actions but no network.hub config defined. "
                    ++ "Using default 127.0.0.1:9000")
            else out in
          (out, Return data)
      end
  end.
End LoadEvent.

(** What a generator writes: the JSON document of the panel, or text. *)
Inductive artifact : Type :=
| Json (config : CompanionGenerator.Config)
| Text (content : string).

(** A written file: the output directory, the file name, the content. *)
Definition file : Type := string * string * artifact.

Section Main.
Context {rt : Runtime}.

(** [generators/qlab_generator.py] and
    [generators/touchdesigner_generator.py] are not among the sources:
    the text each of them writes is a parameter, a function of the
    document and of the clock. *)
Variable QLabGenerator_generate : Event -> ChecklistGenerator.datetime -> string.
Variable TouchDesignerGenerator_generate :
  Event -> ChecklistGenerator.datetime -> string.

(** [main()], with the parsed arguments [template], [output_dir] and
    [only], the file system and the clock as arguments.  The result is
    the list of files written, in order, and the exit status; the
    progress lines [main] prints are not recorded. *)
Definition main (fs : filesystem) (now : ChecklistGenerator.datetime)
    (template output_dir : string) (only : option (list string))
    : list file * Z :=
  match snd (load_event fs template) with
  | Exit code => ([], code)
  | Return event =>
      let event_type := get_or (VStr "unknown") (event_type event) in
      let targets :=
        match only with
        | Some (x :: l) => x :: l
        | _ => [ "companion"; "qlab"; "touchdesigner"; "checklist" ]
        end in
      let selected target := existsb (String.eqb target) targets in
      let generated := [] in
      let generated :=
        if selected "companion"
        then list_append generated
               (output_dir, str event_type ++ "_companion.json",
                Json (CompanionGenerator.generate
                        (CompanionGenerator.__init__ event)))
        else generated in
      let generated :=
        if selected "qlab"
        then list_append generated
               (output_dir, str event_type ++ "_qlab_cues.py",
                Text (QLabGenerator_generate event now))
        else generated in
      let generated :=
        if selected "touchdesigner"
        then list_append generated
               (output_dir, str event_type ++ "_touchdesigner_setup.py",
                Text (TouchDesignerGenerator_generate event now))
        else generated in
      let generated :=
        if selected "checklist"
        then list_append generated
               (output_dir, str event_type ++ "_checklist.md",
                Text (ChecklistGenerator.generate
                        (ChecklistGenerator.__init__ event) now))
        else generated in
      (generated, 0%Z)
  end.
End Main.

End Generate.

(** ** The two generators that are not among the sources *)

Module Missing.

(** Modelled from the spec: [generators/qlab_generator.py] is missing.  The
    cue-sequencing script gives every cue "a network action per HubAction
    addressed to the configured hub host/port" (section 4.3), and when no
    hub endpoint is configured "the downstream compilers use the documented
    default endpoint (loopback address, fixed default port)" (section 4.1),
    the same fallbacks the checklist quotes (section 4.5). *)
Definition QLabGenerator_hub_endpoint (event : Event) : pyval * pyval :=
  let hub := get_or empty_Endpoint (net_hub (get_or empty_Network (network event))) in
  (get_or (VStr "127.0.0.1") (host hub), get_or (VInt 9000) (port hub)).

(** Modelled from the spec: [generators/touchdesigner_generator.py] is
    missing.  The graphics script is one of the downstream compilers of
    section 4.1, which use the configured hub endpoint or else the
    documented default endpoint, and section 8 lists it among the artifacts
    that embed the network endpoint values. *)
Definition TouchDesignerGenerator_hub_endpoint (event : Event) : pyval * pyval :=
  let hub := get_or empty_Endpoint (net_hub (get_or empty_Network (network event))) in
  (get_or (VStr "127.0.0.1") (host hub), get_or (VInt 9000) (port hub)).

End Missing.

(** ** Notions used to state the properties *)

Module Notions.
Import CompanionGenerator.

(** The action the specification describes for a hub action: the variant
    follows the type of the first argument, a float giving the float
    variant, an integer the integer variant, a string or any other value
    the string variant, and no argument the trigger without arguments. *)
Definition described_action {rt : Runtime} (ha : HubAction) : Action :=
  let address := get_or "" (ha_address ha) in
  match ha_args ha with
  | Some (VFloat f :: _) =>
      {| actionId := "osc:send_float";
         options := {| path := address; value := Some (VFloat f) |} |}
  | Some (VInt z :: _) =>
      {| actionId := "osc:send_integer";
         options := {| path := address; value := Some (VInt z) |} |}
  | Some (arg :: _) =>
      {| actionId := "osc:send_string";
         options := {| path := address; value := Some (VStr (str arg)) |} |}
  | _ =>
      {| actionId := "osc:send_no_args";
         options := {| path := address; value := None |} |}
  end.

(** The same with a boolean first argument in the integer variant, the
    boolean passed on as it is. *)
Definition dispatched_action {rt : Runtime} (ha : HubAction) : Action :=
  let address := get_or "" (ha_address ha) in
  match ha_args ha with
  | Some (VBool b :: _) =>
      {| actionId := "osc:send_integer";
         options := {| path := address; value := Some (VBool b) |} |}
  | _ => described_action ha
  end.

(** The steps of a button that carries the actions [acts]. *)
Definition one_step (acts : list Action) : dict Step :=
  [ ("step0", {| down := acts; up := [] |}) ].

(** A button carries at least one action. *)
Definition has_actions (b : Button) : bool :=
  match steps b with
  | [ (_, {| down := _ :: _; up := _ |}) ] => true
  | _ => false
  end.

(** A button drawn in the palette entry [s]. *)
Definition has_style (s : string) (b : Button) : bool :=
  (bgcolor (style b) =? bg (get_or COLORS_blank (dict_get COLORS s)))%Z.

(** The number of buttons of a page that satisfy [p]. *)
Definition count_buttons (p : Button -> bool) (d : dict Button) : nat :=
  List.length (filter (fun kb => p (snd kb)) d).

(** A string holds a comma. *)
Fixpoint has_comma (s : string) : bool :=
  match s with
  | EmptyString => false
  | String c s' => (c =? ",")%char || has_comma s'
  end.

(** The document with its [audio] entry replaced. *)
Definition with_audio (data : Event) (a : option Audio) : Event :=
  {| event_type := event_type data;
     event_name := event_name data;
     venue := venue data;
     performers := performers data;
     metadata := metadata data;
     network := network data;
     audio := a;
     video := video data;
     lighting := lighting data;
     cues := cues data |}.

End Notions.

(** ** The warnings of [load_event] *)

Module Warnings.

(** The line [load_event] prints for a hub action of a cue whose address
    starts with none of the known prefixes. *)
Definition unknown_prefix_warning {rt : Runtime} (cue : Cue) (action : HubAction)
    : string :=
  "  Warning: cue " ++ str (get_or VNone (cue_id cue)) ++
  ": hub_action address '" ++ get_or "" (ha_address action) ++
  "' does not match any known hub prefix".

(** The line it prints when cues have hub actions and [network] has no
    [hub] entry. *)
Definition missing_hub_warning : string :=
  "  Warning: Cues have hub_actions but no network.hub config defined. " ++
  "Using default 127.0.0.1:9000".

(** The address of a hub action starts with a known prefix. *)
Definition known_address (action : HubAction) : bool :=
  existsb (fun p => prefix p (get_or "" (ha_address action))) Generate.known_prefixes.

End Warnings.

(** ** Sample documents *)

Module Samples.
Import ChecklistGenerator.

(** A runtime for documents without floats and without strings nested in
    lists or mappings: [repr] of a plain ASCII string is the string
    between single quotes, and no float is ever rendered. *)
Definition plain_runtime : Runtime :=
  {| repr_float := fun _ => "nan"; repr_str := fun s => "'" ++ s ++ "'" |}.

Definition cue (number : Z) (timing : string) : Cue :=
  {| cue_number := Some (VInt number);
     cue_id := None;
     cue_name := None;
     cue_type := None;
     cue_timing := Some (VStr timing);
     cue_hub_actions := None |}.

Definition microphone (channel : Z) : Microphone :=
  {| mic_id := None; mic_type := None; mic_model := None;
     mic_input_channel := Some (VInt channel);
     mic_performer := None; mic_gain_db := None |}.

Definition camera (id : string) : Camera :=
  {| cam_id := Some id; cam_position := None; cam_shot := None;
     cam_resolution := None |}.

Definition preset (name : string) : LightingPreset :=
  {| preset_name := Some name; preset_description := None |}.

Definition document (mics : list Microphone) (cams : list Camera)
    (presets : list LightingPreset) (cue_list : list Cue) : Event :=
  {| event_type := Some (VStr "recital");
     event_name := Some (VStr "Spring Recital");
     venue := None;
     performers := None;
     metadata := None;
     network := None;
     audio := Some {| audio_microphones := Some mics; audio_recording := None |};
     video := Some {| video_cameras := Some cams; video_recording := None |};
     lighting := Some {| lighting_controller := None; lighting_universe := None;
                         lighting_presets := Some presets |};
     cues := Some cue_list |}.

(** Three cues, one per show phase, and one microphone on channel 1. *)
Definition recital : Event :=
  document [ microphone 1 ] []
    [] [ cue 1 "pre-show"; cue 2 "show"; cue 3 "post-show" ].

(** Nine pre-show cues, one more than a row holds, and one show cue. *)
Definition nine_pre_show : list Cue :=
  map (fun n => cue n "pre-show") [1; 2; 3; 4; 5; 6; 7; 8; 9]%Z.

Definition overflow : Event :=
  document [] [] [] (nine_pre_show ++ [ cue 10 "show" ]).

(** Eight cameras, eight microphones and eight presets. *)
Definition crowded : Event :=
  document
    (map microphone [1; 2; 3; 4; 5; 6; 7; 8]%Z)
    (map camera [ "cam1"; "cam2"; "cam3"; "cam4"; "cam5"; "cam6"; "cam7"; "cam8" ])
    (map preset [ "Warm"; "Cool"; "Blue"; "Red"; "Dim"; "Full"; "Side"; "Back" ])
    [].

(** A cue whose hub action carries a boolean argument, and its document. *)
Definition mute_all : HubAction :=
  {| ha_address := Some "/avantis/ch/1/mix/mute"; ha_args := Some [ VBool true ] |}.

Definition fade_up : HubAction :=
  {| ha_address := Some "/lights/fade"; ha_args := Some [ VInt 3 ] |}.

Definition unknown_route : HubAction :=
  {| ha_address := Some "/elsewhere/go"; ha_args := None |}.

Definition cue_with (actions : list HubAction) : Cue :=
  {| cue_number := Some (VInt 1);
     cue_id := Some (VStr "q1");
     cue_name := Some "House lights";
     cue_type := Some "lighting";
     cue_timing := Some (VStr "show");
     cue_hub_actions := Some actions |}.

Definition routed : Event := document [] [] [] [ cue_with [ fade_up; unknown_route ] ].

(** Two readings of the clock on consecutive days. *)
Definition fifth : datetime := {| year := 2026; month := 11; day := 5 |}.
Definition sixth : datetime := {| year := 2026; month := 11; day := 6 |}.

(** A file system that holds one document, at [show.yaml]. *)
Definition holding (data : Event) : Generate.filesystem :=
  fun path => if path =? "show.yaml" then Some data else None.

End Samples.

(** ** Further notions *)

Module MoreNotions.
Import Warnings CompanionGenerator.

(** The hub actions of a cue list, each with its cue, in document order. *)
Definition hub_action_pairs (cue_list : list Cue) : list (Cue * HubAction) :=
  flat_map (fun cue => map (pair cue) (get_or [] (cue_hub_actions cue))) cue_list.

(** A hub action cut down to its first argument. *)
Definition first_argument_only (ha : HubAction) : HubAction :=
  {| ha_address := ha_address ha;
     ha_args := match ha_args ha with
                | Some (arg :: _) => Some [ arg ]
                | other => other
                end |}.

(** A character does not occur in a string. *)
Fixpoint lacks (c : ascii) (s : string) : bool :=
  match s with
  | EmptyString => true
  | String x s' => negb (x =? c)%char && lacks c s'
  end.

(** The name of a written file. *)
Definition file_name (f : Generate.file) : string := snd (fst f).

End MoreNotions.

(** ** Further sample documents *)

Module MoreSamples.
Import Samples.

(** Nine post-show cues, one more than a row holds. *)
Definition long_post_show : Event :=
  document [] [] []
    (map (fun n => cue n "post-show") [1; 2; 3; 4; 5; 6; 7; 8; 9]%Z).

(** A microphone of which the document says nothing. *)
Definition bare_microphone : Microphone :=
  {| mic_id := None; mic_type := None; mic_model := None;
     mic_input_channel := None; mic_performer := None; mic_gain_db := None |}.

End MoreSamples.

(** * Properties

    ** Strings, decimal rendering and dictionaries *)

Module Facts.
Import Notions CompanionGenerator.

(** *** Strings *)

Lemma append_assoc (a b c : string) : (a ++ b) ++ c = a ++ (b ++ c).
Proof. induction a as [|x a IH]; simpl; [reflexivity | now rewrite IH]. Qed.

Lemma length_append (a b : string) :
  String.length (a ++ b) = String.length a + String.length b.
Proof. induction a as [|x a IH]; simpl; [reflexivity | now rewrite IH]. Qed.

Lemma append_inv_head (a b c : string) : a ++ b = a ++ c -> b = c.
Proof. induction a as [|x a IH]; simpl; intros H; [assumption | injection H; auto]. Qed.

Lemma append_inv_tail (a b c : string) : a ++ c = b ++ c -> a = b.
Proof.
  revert b; induction a as [|x a IH]; intros [|y b] H; simpl in H.
  - reflexivity.
  - exfalso. apply (f_equal String.length) in H. simpl in H.
    rewrite length_append in H. lia.
  - exfalso. apply (f_equal String.length) in H. simpl in H.
    rewrite length_append in H. lia.
  - injection H as -> H. f_equal. now apply IH.
Qed.

(** *** Decimal rendering and button coordinates *)

Lemma digits_no_comma (d : uint) : has_comma (NilEmpty.string_of_uint d) = false.
Proof. induction d; simpl; auto. Qed.

Lemma str_of_nat_no_comma (n : nat) : has_comma (str_of_nat n) = false.
Proof.
  unfold str_of_nat, NilZero.string_of_uint.
  destruct (Nat.to_uint n); try apply digits_no_comma. reflexivity.
Qed.

Lemma to_uint_nonnil (n : nat) : Nat.to_uint n <> Nil.
Proof.
  pose proof (Unsigned.to_of (Nat.to_uint n)) as H.
  rewrite Unsigned.of_to in H. rewrite H.
  unfold unorm. destruct (nzhead (Nat.to_uint n)); discriminate.
Qed.

Lemma str_of_nat_inj (n m : nat) : str_of_nat n = str_of_nat m -> n = m.
Proof.
  unfold str_of_nat. intros H.
  apply (f_equal NilZero.uint_of_string) in H.
  rewrite !NilZero.usu in H by apply to_uint_nonnil.
  injection H as H. apply (f_equal Nat.of_uint) in H.
  now rewrite !Unsigned.of_to in H.
Qed.

Lemma comma_split (a b c d : string) :
  has_comma a = false -> has_comma b = false ->
  a ++ "," ++ c = b ++ "," ++ d -> a = b /\ c = d.
Proof.
  revert b; induction a as [|x a IH]; intros [|y b] Ha Hb H; simpl in *.
  - injection H as H. now split.
  - injection H as <- H. discriminate Hb.
  - injection H as -> H. discriminate Ha.
  - injection H as -> H.
    apply orb_false_iff in Ha as [_ Ha]. apply orb_false_iff in Hb as [_ Hb].
    destruct (IH b Ha Hb H) as [-> ->]. now split.
Qed.

Lemma coord_inj (r c r' c' : nat) : coord r c = coord r' c' -> r = r' /\ c = c'.
Proof.
  unfold coord. intros H.
  apply comma_split in H; try apply str_of_nat_no_comma.
  destruct H as [H1 H2]. split; now apply str_of_nat_inj.
Qed.

Lemma coord_eqb (r c r' c' : nat) :
  (coord r c =? coord r' c') = ((r =? r')%nat && (c =? c')%nat).
Proof.
  destruct (String.eqb_spec (coord r c) (coord r' c')) as [H | H].
  - apply coord_inj in H as [-> ->]. now rewrite !Nat.eqb_refl.
  - symmetry. apply andb_false_iff.
    destruct (Nat.eqb_spec r r') as [-> |]; [right | now left].
    destruct (Nat.eqb_spec c c') as [-> |]; [now elim H | reflexivity].
Qed.

(** *** Dictionaries *)

Lemma dict_get_set {V : Type} (d : dict V) (k k' : string) (v : V) :
  dict_get (dict_set d k v) k' = if k =? k' then Some v else dict_get d k'.
Proof.
  induction d as [|[k0 v0] d IH]; simpl.
  - reflexivity.
  - destruct (String.eqb_spec k0 k) as [-> | Hk]; simpl.
    + destruct (k =? k'); reflexivity.
    + rewrite IH. destruct (String.eqb_spec k0 k') as [-> | Hk'].
      * apply String.eqb_neq in Hk. rewrite String.eqb_sym in Hk. now rewrite Hk.
      * reflexivity.
Qed.

Lemma append_nil_r (a : string) : a ++ "" = a.
Proof. induction a as [|x a IH]; simpl; [reflexivity | now rewrite IH]. Qed.

Lemma concat_app (sep : string) (l1 l2 : list string) :
  l1 <> [] -> l2 <> [] ->
  String.concat sep (l1 ++ l2) = String.concat sep l1 ++ sep ++ String.concat sep l2.
Proof.
  intros H1 H2. induction l1 as [|x l1 IH]; [congruence |].
  destruct l1 as [|y l1].
  - destruct l2; [congruence | reflexivity].
  - change (String.concat sep ((x :: y :: l1) ++ l2))
      with (x ++ sep ++ String.concat sep ((y :: l1) ++ l2)).
    rewrite IH by discriminate.
    change (String.concat sep (x :: y :: l1))
      with (x ++ sep ++ String.concat sep (y :: l1)).
    now rewrite !append_assoc.
Qed.

End Facts.

(** ** The loops that fill a row of the A/V page *)

Module LoopFacts.
Import Facts CompanionGenerator.

Section Loops.
Context {rt : Runtime}.

(** A loop that writes one button per list entry on row [r], entry [i]
    at column [i + 1]. *)
Lemma row_loop_get {A : Type} (step : dict Button -> nat * A -> dict Button)
    (r : nat) (f : nat -> A -> Button) :
  (forall b i x, step b (i, x) = dict_set b (coord r (i + 1)) (f i x)) ->
  forall (l : list A) (s : nat) (d : dict Button) (r' c' : nat),
    dict_get (fold_left step (enumerate_from s l) d) (coord r' c') =
    if (r' =? r)%nat && (s <? c')%nat then
      match nth_error l (c' - 1 - s) with
      | Some x => Some (f (c' - 1) x)
      | None => dict_get d (coord r' c')
      end
    else dict_get d (coord r' c').
Proof.
  intros Hstep l. induction l as [|x l IH]; intros s d r' c'; simpl.
  - destruct (c' - 1 - s); simpl; destruct ((r' =? r)%nat && (s <? c')%nat); reflexivity.
  - rewrite IH, Hstep, dict_get_set, coord_eqb.
    destruct (Nat.eqb_spec r' r) as [-> | Hr]; simpl.
    + rewrite Nat.eqb_refl. simpl.
      destruct (Nat.ltb_spec s c') as [Hlt | Hge].
      * destruct (Nat.eqb_spec (s + 1) c') as [<- | Hne].
        -- replace (S s <? s + 1)%nat with false by (symmetry; apply Nat.ltb_ge; lia).
           replace (s + 1 - 1 - s) with 0 by lia. simpl.
           now replace (s + 1 - 1) with s by lia.
        -- replace (S s <? c')%nat with true by (symmetry; apply Nat.ltb_lt; lia).
           replace (c' - 1 - s) with (S (c' - 1 - S s)) by lia. reflexivity.
      * replace (S s <? c')%nat with false by (symmetry; apply Nat.ltb_ge; lia).
        destruct (Nat.eqb_spec (s + 1) c'); [lia | reflexivity].
    + replace (r =? r')%nat with false; [reflexivity |].
      symmetry. apply Nat.eqb_neq. congruence.
Qed.

(** The microphone loop: mute buttons at columns [i + 1], unmute buttons
    at columns [i + 1 + n] when they fit, for the entries [s ..] of a
    list of [n] microphones. *)
Lemma microphone_loop_get (self : t) (n : nat) (l : list Microphone) :
  forall (s : nat) (d : dict Button) (r' c' : nat),
    s + List.length l <= n ->
    dict_get (fold_left (microphone_step self n) (enumerate_from s l) d)
      (coord r' c') =
    if (r' =? 2)%nat then
      match (if (s <? c')%nat then nth_error l (c' - 1 - s) else None) with
      | Some m => Some (mute_button (c' - 1) m)
      | None =>
          match (if (s + n <? c')%nat && (c' <? grid_cols self)%nat
                 then nth_error l (c' - 1 - n - s) else None) with
          | Some m => Some (unmute_button (c' - 1 - n) m)
          | None => dict_get d (coord r' c')
          end
      end
    else dict_get d (coord r' c').
Proof.
  induction l as [|x l IH]; intros s d r' c' Hn;
    cbn [enumerate_from fold_left List.length nth_error] in *.
  - destruct (c' - 1 - s), (c' - 1 - n - s); simpl;
      destruct (r' =? 2)%nat, (s <? c')%nat,
        ((s + n <? c')%nat && (c' <? grid_cols self)%nat); reflexivity.
  - rewrite IH by lia.
    destruct (Nat.eqb_spec r' 2) as [-> | Hr].
    + assert (Hbase :
        dict_get (microphone_step self n d (s, x)) (coord 2 c') =
        if (c' =? s + 1)%nat then Some (mute_button s x)
        else if (c' =? s + 1 + n)%nat && (c' <? grid_cols self)%nat
             then Some (unmute_button s x)
             else dict_get d (coord 2 c')).
      { unfold microphone_step.
        destruct (Nat.ltb_spec (s + 1 + n) (grid_cols self)) as [Hfit | Hfit].
        - rewrite !dict_get_set, !coord_eqb. simpl.
          destruct (Nat.eqb_spec (s + 1 + n) c') as [<- | H1].
          + replace (s + 1 + n =? s + 1)%nat with false
              by (symmetry; apply Nat.eqb_neq; lia).
            rewrite Nat.eqb_refl. simpl.
            now replace (s + 1 + n <? grid_cols self)%nat with true
              by (symmetry; apply Nat.ltb_lt; lia).
          + destruct (Nat.eqb_spec (s + 1) c') as [<- | H2].
            * now rewrite Nat.eqb_refl.
            * replace (c' =? s + 1)%nat with false
                by (symmetry; apply Nat.eqb_neq; lia).
              replace (c' =? s + 1 + n)%nat with false
                by (symmetry; apply Nat.eqb_neq; lia).
              reflexivity.
        - rewrite dict_get_set, coord_eqb. simpl.
          destruct (Nat.eqb_spec (s + 1) c') as [<- | H2].
          + now rewrite Nat.eqb_refl.
          + replace (c' =? s + 1)%nat with false
              by (symmetry; apply Nat.eqb_neq; lia).
            destruct (Nat.eqb_spec c' (s + 1 + n)) as [-> | H3]; simpl.
            * now replace (s + 1 + n <? grid_cols self)%nat with false
                by (symmetry; apply Nat.ltb_ge; lia).
            * reflexivity. }
      rewrite Hbase. clear Hbase.
      destruct (Nat.ltb_spec s c') as [Hlt | Hge].
      * destruct (Nat.eqb_spec c' (s + 1)) as [-> | Hne].
        -- replace (S s <? s + 1)%nat with false by (symmetry; apply Nat.ltb_ge; lia).
           replace (S s + n <? s + 1)%nat with false by (symmetry; apply Nat.ltb_ge; lia).
           replace (s + 1 - 1 - s) with 0 by lia. simpl.
           now replace (s + 1 - 1) with s by lia.
        -- replace (S s <? c')%nat with true by (symmetry; apply Nat.ltb_lt; lia).
           replace (c' - 1 - s) with (S (c' - 1 - S s)) by lia. simpl.
           destruct (nth_error l (c' - 1 - S s)) eqn:Hmute; [reflexivity |].
           destruct (Nat.ltb_spec (s + n) c') as [Hlt2 | Hge2]; simpl.
           ++ destruct (Nat.eqb_spec c' (s + 1 + n)) as [-> | Hne2]; simpl.
              ** replace (S (s + n) <? s + 1 + n)%nat with false
                   by (symmetry; apply Nat.ltb_ge; lia). simpl.
                 destruct (s + 1 + n <? grid_cols self)%nat; [| reflexivity].
                 replace (s + 1 + n - 1 - n - s) with 0 by lia. simpl.
                 now replace (s + 1 + n - 1 - n) with s by lia.
              ** replace (S (s + n) <? c')%nat with true
                   by (symmetry; apply Nat.ltb_lt; lia). simpl.
                 replace (c' - 1 - n - s) with (S (c' - 1 - n - S s)) by lia.
                 reflexivity.
           ++ replace (S (s + n) <? c')%nat with false
                by (symmetry; apply Nat.ltb_ge; lia). simpl.
              replace (c' =? s + 1 + n)%nat with false
                by (symmetry; apply Nat.eqb_neq; lia).
              reflexivity.
      * replace (S s <? c')%nat with false by (symmetry; apply Nat.ltb_ge; lia).
        replace (S s + n <? c')%nat with false by (symmetry; apply Nat.ltb_ge; lia).
        replace (s + n <? c')%nat with false by (symmetry; apply Nat.ltb_ge; lia).
        simpl.
        replace (c' =? s + 1)%nat with false by (symmetry; apply Nat.eqb_neq; lia).
        replace (c' =? s + 1 + n)%nat with false by (symmetry; apply Nat.eqb_neq; lia).
        reflexivity.
    + unfold microphone_step.
      assert (Hne : forall c, (coord 2 c =? coord r' c') = false).
      { intros c. rewrite coord_eqb.
        replace (2 =? r')%nat with false; [reflexivity |].
        symmetry. apply Nat.eqb_neq. congruence. }
      destruct (s + 1 + n <? grid_cols self)%nat;
        now rewrite !dict_get_set, !Hne.
Qed.
End Loops.

End LoopFacts.

(** ** Counting, invariants of the button maps, the Show Control page *)

Module PageFacts.
Import Notions Facts LoopFacts CompanionGenerator.
#[local] Arguments coord : simpl never.
#[local] Arguments _make_button : simpl never.

(** *** Counting buttons *)

Lemma count_set_le (p : Button -> bool) (d : dict Button) (k : string) (v : Button) :
  p v = false -> count_buttons p (dict_set d k v) <= count_buttons p d.
Proof.
  intros Hv. unfold count_buttons.
  induction d as [|[k0 v0] d IH]; simpl.
  - now rewrite Hv.
  - destruct (k0 =? k); simpl.
    + rewrite Hv. destruct (p v0); simpl; lia.
    + destruct (p v0); simpl; lia.
Qed.

Lemma dict_set_fresh {V : Type} (d : dict V) (k : string) (v : V) :
  dict_get d k = None -> dict_set d k v = (d ++ [(k, v)])%list.
Proof.
  induction d as [|[k0 v0] d IH]; simpl; [reflexivity |].
  destruct (k0 =? k); [discriminate |]. intros H. now rewrite IH.
Qed.

Lemma count_set_fresh (p : Button -> bool) (d : dict Button) (k : string) (v : Button) :
  dict_get d k = None -> p v = true ->
  count_buttons p (dict_set d k v) = S (count_buttons p d).
Proof.
  intros Hk Hv. rewrite dict_set_fresh by assumption.
  unfold count_buttons. rewrite filter_app, length_app. simpl.
  rewrite Hv. simpl. lia.
Qed.

Lemma fold_count_le {A : Type} (p : Button -> bool)
    (step : dict Button -> A -> dict Button) :
  (forall b x, count_buttons p (step b x) <= count_buttons p b) ->
  forall l d, count_buttons p (fold_left step l d) <= count_buttons p d.
Proof.
  intros Hstep l. induction l as [|x l IH]; intros d; simpl; [lia |].
  specialize (IH (step d x)). specialize (Hstep d x). lia.
Qed.

(** A row loop that writes fresh keys adds one button per entry. *)
Lemma row_loop_count {A : Type} (p : Button -> bool)
    (step : dict Button -> nat * A -> dict Button)
    (r : nat) (f : nat -> A -> Button) :
  (forall b i x, step b (i, x) = dict_set b (coord r (i + 1)) (f i x)) ->
  (forall i x, p (f i x) = true) ->
  forall (l : list A) (s : nat) (d : dict Button),
    (forall c, s < c -> dict_get d (coord r c) = None) ->
    count_buttons p (fold_left step (enumerate_from s l) d) =
    count_buttons p d + List.length l.
Proof.
  intros Hstep Hp l. induction l as [|x l IH]; intros s d Hd;
    cbn [enumerate_from fold_left List.length].
  - lia.
  - rewrite Hstep, IH.
    + rewrite count_set_fresh; [lia | apply Hd; lia | apply Hp].
    + intros c Hc. rewrite dict_get_set, coord_eqb, Nat.eqb_refl.
      replace (s + 1 =? c)%nat with false by (symmetry; apply Nat.eqb_neq; lia).
      apply Hd. lia.
Qed.

(** *** A property of every button of a map *)

Lemma dict_set_Forall {V : Type} (P : V -> Prop) (d : dict V) (k : string) (v : V) :
  Forall (fun kv => P (snd kv)) d -> P v ->
  Forall (fun kv => P (snd kv)) (dict_set d k v).
Proof.
  intros Hd Hv. induction d as [|[k0 v0] d IH]; simpl.
  - now constructor.
  - inversion Hd; subst. destruct (k0 =? k); constructor; auto.
Qed.

Lemma fold_Forall {A V : Type} (P : V -> Prop) (step : dict V -> A -> dict V) :
  (forall b x, Forall (fun kv => P (snd kv)) b ->
               Forall (fun kv => P (snd kv)) (step b x)) ->
  forall l d, Forall (fun kv => P (snd kv)) d ->
              Forall (fun kv => P (snd kv)) (fold_left step l d).
Proof.
  intros Hstep l. induction l as [|x l IH]; intros d Hd; simpl; auto.
Qed.

(** *** The cue loops leave row 0 alone *)

Section ShowPage.
Context {rt : Runtime}.

Lemma place_cues_row0 (self : t) (l : list Cue) :
  forall (b : dict Button) (r c : nat) (b' : dict Button) (r' c' : nat) (j : nat),
    1 <= r ->
    fold_left (place_cue self) l (b, r, c) = (b', r', c') ->
    dict_get b' (coord 0 j) = dict_get b (coord 0 j).
Proof.
  induction l as [|x l IH]; intros b r c b' r' c' j Hr H; simpl in H.
  - now injection H as <- _ _.
  - destruct (grid_cols self <=? c)%nat.
    + rewrite (IH _ _ _ _ _ _ j) with (2 := H) by lia.
      rewrite dict_get_set, coord_eqb.
      replace (r + 1 =? 0)%nat with false by (symmetry; apply Nat.eqb_neq; lia).
      reflexivity.
    + rewrite (IH _ _ _ _ _ _ j) with (2 := H) by lia.
      rewrite dict_get_set, coord_eqb.
      replace (r =? 0)%nat with false by (symmetry; apply Nat.eqb_neq; lia).
      reflexivity.
Qed.

Lemma show_page_row0 (self : t) (j : nat) :
  dict_get (buttons (_build_show_control_page self)) (coord 0 j) =
  dict_get (show_control_header self) (coord 0 j).
Proof.
  cbn [_build_show_control_page buttons].
  unfold after_post_show, after_show, after_pre_show.
  destruct (fold_left (place_cue self) (pre_show_of _) _) as [[b1 r1] c1] eqn:E1.
  destruct (fold_left (place_cue self) (show_cues_of _) _) as [[b2 r2] c2] eqn:E2.
  destruct (fold_left (place_cue self) (post_show_of _) _) as [[b3 r3] c3] eqn:E3.
  rewrite (place_cues_row0 _ _ _ _ _ _ _ _ j (le_S _ _ (le_S _ _ (le_n 1))) E3).
  rewrite (place_cues_row0 _ _ _ _ _ _ _ _ j (le_S _ _ (le_n 1)) E2).
  apply (place_cues_row0 _ _ _ _ _ _ _ _ j (le_n 1) E1).
Qed.

Lemma hub_actions_to_osc_fold (l : list HubAction) (acc : list Action) :
  fold_left hub_action_step l acc = (acc ++ map dispatched_action l)%list.
Proof.
  revert acc. induction l as [|ha l IH]; intros acc; simpl.
  - now rewrite app_nil_r.
  - rewrite IH. unfold hub_action_step, dispatched_action, described_action, list_append.
    destruct (ha_args ha) as [[|[] ?]|]; simpl; now rewrite <- app_assoc.
Qed.

Lemma cue_button_has_actions (cue : Cue) : has_actions (_make_cue_button cue) = true.
Proof.
  unfold _make_cue_button, has_actions.
  destruct (get_or [] (cue_hub_actions cue)) as [|ha l] eqn:E.
  - reflexivity.
  - unfold _hub_actions_to_osc. rewrite hub_actions_to_osc_fold.
    cbn [app map]. reflexivity.
Qed.
End ShowPage.

End PageFacts.

(** ** The rows of the A/V page *)

Module AvPageFacts.
Import Notions Facts LoopFacts PageFacts CompanionGenerator.
#[local] Arguments coord : simpl never.
#[local] Arguments _make_button : simpl never.
#[local] Arguments camera_button : simpl never.
#[local] Arguments mute_button : simpl never.
#[local] Arguments unmute_button : simpl never.
#[local] Arguments preset_button : simpl never.

Section Rows.
Context {rt : Runtime}.
Variable ev : Event.
Let self := __init__ ev.
Let cameras := get_or [] (video_cameras (get_or empty_Video (video ev))).
Let mics := get_or [] (audio_microphones (get_or empty_Audio (audio ev))).
Let presets := get_or [] (lighting_presets (get_or empty_Lighting (lighting ev))).

Lemma camera_step_eq (b : dict Button) (i : nat) (x : Camera) :
  camera_step b (i, x) = dict_set b (coord 1 (i + 1)) (camera_button i x).
Proof. reflexivity. Qed.

Lemma preset_step_eq (b : dict Button) (i : nat) (x : LightingPreset) :
  preset_step b (i, x) = dict_set b (coord 3 (i + 1)) (preset_button i x).
Proof. reflexivity. Qed.

Lemma key_coord (k : string) (r c : nat) (d : dict Button) (v : Button) (r' c' : nat) :
  k = coord r c ->
  dict_get (dict_set d k v) (coord r' c') =
  if (r =? r')%nat && (c =? c')%nat then Some v else dict_get d (coord r' c').
Proof. intros ->. now rewrite dict_get_set, coord_eqb. Qed.

Ltac av_lookup :=
  cbn [_build_av_control_page buttons]; unfold after_presets, enumerate; cbv zeta;
  rewrite (row_loop_get preset_step 3 preset_button preset_step_eq);
  rewrite (key_coord "3,0" 3 0) by reflexivity;
  unfold after_microphones, enumerate; cbv zeta;
  rewrite microphone_loop_get by (cbn [List.length]; lia);
  rewrite (key_coord "2,0" 2 0) by reflexivity;
  unfold after_cameras, enumerate; cbv zeta;
  rewrite (row_loop_get camera_step 1 camera_button camera_step_eq);
  rewrite (key_coord "1,0" 1 0), (key_coord "0,0" 0 0) by reflexivity;
  cbn [dict_get Nat.eqb andb grid_cols __init__ event Nat.add].

(** Row 1 of the A/V page. *)
Lemma av_row1 (c : nat) :
  dict_get (buttons (_build_av_control_page self)) (coord 1 c) =
  match c with
  | 0 => Some (_make_button "CAMERAS" "header" "12" None)
  | S i => option_map (camera_button i) (nth_error cameras i)
  end.
Proof.
  av_lookup. change (event self) with ev. fold cameras.
  destruct c as [|i]; simpl; [reflexivity |].
  rewrite !Nat.sub_0_r.
  destruct (nth_error cameras i); reflexivity.
Qed.

(** Row 2 of the A/V page. *)
Lemma av_row2 (c : nat) :
  dict_get (buttons (_build_av_control_page self)) (coord 2 c) =
  match c with
  | 0 => Some (_make_button "AUDIO" "header" "12" None)
  | S i =>
      match nth_error mics i with
      | Some m => Some (mute_button i m)
      | None =>
          if (List.length mics <? c)%nat && (c <? 8)%nat
          then option_map (unmute_button (i - List.length mics))
                 (nth_error mics (i - List.length mics))
          else None
      end
  end.
Proof.
  av_lookup. change (event self) with ev. fold mics.
  destruct c as [|i]; simpl.
  - reflexivity.
  - rewrite !Nat.sub_0_r.
    destruct (nth_error mics i); [reflexivity |].
    destruct ((List.length mics <? S i)%nat && (S i <? 8)%nat); [| reflexivity].
    destruct (nth_error mics (i - List.length mics)); reflexivity.
Qed.

(** Row 3 of the A/V page. *)
Lemma av_row3 (c : nat) :
  dict_get (buttons (_build_av_control_page self)) (coord 3 c) =
  match c with
  | 0 => Some (_make_button "LIGHTING" "header" "12" None)
  | S i => option_map (preset_button i) (nth_error (firstn 7 presets) i)
  end.
Proof.
  av_lookup. change (event self) with ev. fold presets.
  destruct c as [|i]; simpl; [reflexivity |].
  rewrite !Nat.sub_0_r.
  destruct (nth_error (firstn 7 presets) i); reflexivity.
Qed.
End Rows.

Section BeforePresets.
Context {rt : Runtime}.

(** The A/V page before the preset loop has no lighting button, and
    nothing on row 3 after the header column. *)
Lemma before_presets_count (ev : Event) :
  count_buttons (has_style "lighting")
    (dict_set (after_microphones (__init__ ev)) "3,0"
       (_make_button "LIGHTING" "header" "12" None)) = 0.
Proof.
  apply Nat.le_0_r.
  eapply Nat.le_trans; [apply count_set_le; reflexivity |].
  unfold after_microphones. cbv zeta.
  eapply Nat.le_trans.
  { apply fold_count_le. intros b [i m]. unfold microphone_step.
    destruct (i + 1 + _ <? _)%nat.
    - eapply Nat.le_trans; apply count_set_le; reflexivity.
    - apply count_set_le; reflexivity. }
  eapply Nat.le_trans; [apply count_set_le; reflexivity |].
  unfold after_cameras. cbv zeta.
  eapply Nat.le_trans.
  { apply fold_count_le. intros b [i c]. apply count_set_le; reflexivity. }
  eapply Nat.le_trans; [apply count_set_le; reflexivity |].
  eapply Nat.le_trans; [apply count_set_le; reflexivity |].
  apply Nat.le_refl.
Qed.

Lemma before_presets_row3 (ev : Event) (c : nat) :
  0 < c ->
  dict_get
    (dict_set (after_microphones (__init__ ev)) "3,0"
       (_make_button "LIGHTING" "header" "12" None)) (coord 3 c) = None.
Proof.
  intros Hc.
  rewrite (key_coord "3,0" 3 0) by reflexivity.
  unfold after_microphones, enumerate; cbv zeta.
  rewrite microphone_loop_get by (cbn [List.length]; lia).
  rewrite (key_coord "2,0" 2 0) by reflexivity.
  unfold after_cameras, enumerate; cbv zeta.
  rewrite (row_loop_get camera_step 1 camera_button camera_step_eq).
  rewrite (key_coord "1,0" 1 0), (key_coord "0,0" 0 0) by reflexivity.
  cbn [dict_get Nat.eqb andb].
  destruct c; [lia | reflexivity].
Qed.

End BeforePresets.

End AvPageFacts.

(** ** The checklist and the checks of [load_event] *)

Module RunFacts.
Import Notions Warnings Facts CompanionGenerator.

Section Run.
Context {rt : Runtime}.

(** The checklist determines the date it was generated on. *)
Lemma checklist_date_inj (ev : Event) (now1 now2 : ChecklistGenerator.datetime) :
  ChecklistGenerator.generate (ChecklistGenerator.__init__ ev) now1 =
  ChecklistGenerator.generate (ChecklistGenerator.__init__ ev) now2 ->
  ChecklistGenerator.strftime_Ymd now1 = ChecklistGenerator.strftime_Ymd now2.
Proof.
  unfold ChecklistGenerator.generate, ChecklistGenerator.join_lines,
    ChecklistGenerator._header, ChecklistGenerator.block.
  cbn [String.concat]. intros H.
  rewrite !append_assoc in H.
  repeat apply append_inv_head in H.
  now apply append_inv_tail in H.
Qed.

(** [load_event] reads nothing of the [audio] entry. *)
Lemma load_event_ignores_audio (data : Event) (a : option Audio) (yaml_path : string) :
  fst (Generate.load_event (fun _ => Some (with_audio data a)) yaml_path) =
  fst (Generate.load_event (fun _ => Some data) yaml_path).
Proof.
  unfold Generate.load_event, Generate.required_keys.
  cbn [find snd with_audio event_type cues network].
  destruct (event_type data); cbn [Generate.is_some negb]; [| reflexivity].
  destruct (cues data); cbn [Generate.is_some negb get_or]; [| reflexivity].
  destruct (fold_left Generate.check_cue _ _) as [out has_hub_actions].
  reflexivity.
Qed.

(** The lines printed only grow, and a hub action sets the flag. *)
Lemma check_action_keeps (cue : Cue) (st : list string * bool) (action : HubAction)
    (w : string) :
  In w (fst st) -> In w (fst (Generate.check_action cue st action)).
Proof.
  destruct st as [out flag]. unfold Generate.check_action, list_append.
  destruct (negb _); simpl; intros H; [apply in_or_app; now left | assumption].
Qed.

Lemma check_action_flag (cue : Cue) (st : list string * bool) (action : HubAction) :
  snd (Generate.check_action cue st action) = true.
Proof.
  destruct st as [out flag]. unfold Generate.check_action.
  destruct (negb _); reflexivity.
Qed.

Lemma check_action_warns (cue : Cue) (st : list string * bool) (action : HubAction) :
  known_address action = false ->
  In (unknown_prefix_warning cue action) (fst (Generate.check_action cue st action)).
Proof.
  destruct st as [out flag].
  unfold Generate.check_action, known_address, list_append. intros ->.
  simpl. apply in_or_app. right. now left.
Qed.

Lemma check_actions_keep (cue : Cue) (l : list HubAction) :
  forall (st : list string * bool) (w : string),
    In w (fst st) -> In w (fst (fold_left (Generate.check_action cue) l st)).
Proof.
  induction l as [|a l IH]; intros st w H; simpl; [assumption |].
  apply IH. now apply check_action_keeps.
Qed.

Lemma check_actions_keep_flag (cue : Cue) (l : list HubAction) :
  forall st : list string * bool,
    snd st = true -> snd (fold_left (Generate.check_action cue) l st) = true.
Proof.
  induction l as [|a l IH]; intros st H; simpl; [assumption |].
  apply IH. apply check_action_flag.
Qed.

Lemma check_actions_in (cue : Cue) (l : list HubAction) (action : HubAction) :
  forall st : list string * bool,
    In action l ->
    snd (fold_left (Generate.check_action cue) l st) = true /\
    (known_address action = false ->
     In (unknown_prefix_warning cue action)
        (fst (fold_left (Generate.check_action cue) l st))).
Proof.
  induction l as [|a l IH]; intros st H; [contradiction |].
  destruct H as [-> | H]; simpl.
  - split.
    + apply check_actions_keep_flag, check_action_flag.
    + intros Hu. apply check_actions_keep. now apply check_action_warns.
  - now apply IH.
Qed.

Lemma check_cues_keep (l : list Cue) :
  forall (st : list string * bool) (w : string),
    In w (fst st) -> In w (fst (fold_left Generate.check_cue l st)).
Proof.
  induction l as [|c l IH]; intros st w H; simpl; [assumption |].
  apply IH. unfold Generate.check_cue. now apply check_actions_keep.
Qed.

Lemma check_cues_keep_flag (l : list Cue) :
  forall st : list string * bool,
    snd st = true -> snd (fold_left Generate.check_cue l st) = true.
Proof.
  induction l as [|c l IH]; intros st H; simpl; [assumption |].
  apply IH. unfold Generate.check_cue. now apply check_actions_keep_flag.
Qed.

Lemma check_cues_in (l : list Cue) (cue : Cue) (action : HubAction) :
  forall st : list string * bool,
    In cue l -> In action (get_or [] (cue_hub_actions cue)) ->
    snd (fold_left Generate.check_cue l st) = true /\
    (known_address action = false ->
     In (unknown_prefix_warning cue action)
        (fst (fold_left Generate.check_cue l st))).
Proof.
  induction l as [|c l IH]; intros st H Ha; [contradiction |].
  destruct H as [-> | H]; simpl.
  - destruct (check_actions_in cue _ action st Ha) as [Hflag Hwarn]. split.
    + now apply check_cues_keep_flag.
    + intros Hu. apply check_cues_keep. now apply Hwarn.
  - now apply IH.
Qed.
End Run.

End RunFacts.

(** * The claims *)

Module Claims.
Import Notions Warnings Samples Facts LoopFacts PageFacts AvPageFacts RunFacts.
Import CompanionGenerator.
#[local] Arguments coord : simpl never.
#[local] Arguments _make_button : simpl never.
#[local] Arguments _make_cue_button : simpl never.
#[local] Arguments camera_button : simpl never.
#[local] Arguments mute_button : simpl never.
#[local] Arguments unmute_button : simpl never.
#[local] Arguments preset_button : simpl never.

Section Statements.
Context {rt : Runtime}.

(** The text written by each of the two generators that are not among
    the sources. *)
Variable QLabGenerator_generate : Event -> ChecklistGenerator.datetime -> string.
Variable TouchDesignerGenerator_generate :
  Event -> ChecklistGenerator.datetime -> string.

(** C1 (as amended): the panel layout is a function of the document
    alone, so a run that writes only the panel writes the same file
    whatever the clock reads; the checklist is a function of the document
    and of the current date, which its header shows: two compilations of
    one document give the same checklist exactly when they run on the
    same date. *)
Theorem checklist_same_iff_same_date (ev : Event)
    (now1 now2 : ChecklistGenerator.datetime)
    (fs : Generate.filesystem) (template output_dir : string) :
  (ChecklistGenerator.generate (ChecklistGenerator.__init__ ev) now1 =
   ChecklistGenerator.generate (ChecklistGenerator.__init__ ev) now2 <->
   ChecklistGenerator.strftime_Ymd now1 = ChecklistGenerator.strftime_Ymd now2) /\
  Generate.main QLabGenerator_generate TouchDesignerGenerator_generate
    fs now1 template output_dir (Some [ "companion" ]) =
  Generate.main QLabGenerator_generate TouchDesignerGenerator_generate
    fs now2 template output_dir (Some [ "companion" ]).
Proof.
  split; [split |].
  - apply checklist_date_inj.
  - intros H. unfold ChecklistGenerator.generate, ChecklistGenerator._header.
    now rewrite H.
  - unfold Generate.main.
    destruct (snd (Generate.load_event fs template)); reflexivity.
Qed.

(** C2: the claim fails on the code.  With nine pre-show cues and one
    show cue, the pre-show loop wraps its ninth cue to row 2, column 0,
    and the show loop then assigns its first cue to the same coordinate:
    the page keeps the show cue there and holds no button for the ninth
    pre-show cue. *)
Theorem overflow_collides_at_row_2 :
  let self := __init__ overflow in
  let ninth := _make_cue_button (Samples.cue 9 "pre-show") in
  let tenth := _make_cue_button (Samples.cue 10 "show") in
  dict_get (after_pre_show self) (coord 2 0) = Some ninth /\
  dict_get (buttons (_build_show_control_page self)) (coord 2 0) = Some tenth /\
  ninth <> tenth /\
  ~ In ninth (map snd (buttons (_build_show_control_page self))) /\
  List.length (buttons (_build_show_control_page self)) = 6 + 9.
Proof.
  repeat split; try (vm_compute; reflexivity).
  - vm_compute. discriminate.
  - vm_compute. intuition discriminate.
Qed.

(** C3 (as amended): the button of a cue with hub actions carries one
    action per hub action, in the same order, the variant chosen by the
    first argument: a float gives the float variant, an integer or a
    boolean the integer variant with the value as it is, a string or any
    other value the string variant with the value rendered as a string,
    and an absent or empty argument list the variant without arguments;
    the button of a cue without hub actions carries the single action
    without arguments addressed to /cue/{number}/start. *)
Theorem cue_button_actions (cue : Cue) :
  steps (_make_cue_button cue) =
  one_step
    match get_or [] (cue_hub_actions cue) with
    | [] =>
        [ {| actionId := "osc:send_no_args";
             options :=
               {| path := "/cue/" ++
                          str (get_or (VStr "???") (cue_number cue)) ++ "/start";
                  value := None |} |} ]
    | hub_actions => map dispatched_action hub_actions
    end.
Proof.
  unfold _make_cue_button.
  destruct (get_or [] (cue_hub_actions cue)) as [|ha l]; [reflexivity |].
  unfold _hub_actions_to_osc. rewrite hub_actions_to_osc_fold. reflexivity.
Qed.

(** C4: the hub endpoint of the panel's connection descriptor, with its
    fallback 127.0.0.1:9000, is the one the cue-sequencing script and the
    graphics script use and the one the network section of the checklist
    prints. *)
Theorem hub_endpoint_consistent (ev : Event) :
  let connection := _build_osc_connection (__init__ ev) in
  let h := config_host (config connection) in
  let p := config_port (config connection) in
  Missing.QLabGenerator_hub_endpoint ev = (h, p) /\
  Missing.TouchDesignerGenerator_hub_endpoint ev = (h, p) /\
  (exists rest,
     ChecklistGenerator._network_setup (ChecklistGenerator.__init__ ev) =
     "## 2. Network Configuration" ++ nl ++ nl ++
     "- [ ] All devices on same network / VLAN" ++ nl ++
     "- [ ] Production Hub running at `" ++ str h ++ ":" ++ str p ++ "`" ++ nl ++
     "- [ ] Hub dashboard accessible at `http://" ++ str h ++ ":8080/`" ++ nl ++
     rest) /\
  (h, p) =
  match network ev with
  | Some {| net_hub := Some hub |} =>
      (get_or (VStr "127.0.0.1") (host hub), get_or (VInt 9000) (port hub))
  | _ => (VStr "127.0.0.1", VInt 9000)
  end.
Proof.
  cbv zeta. repeat split.
  - unfold ChecklistGenerator._network_setup, ChecklistGenerator.block.
    cbn [String.concat _build_osc_connection config config_host config_port
         event ChecklistGenerator.event ChecklistGenerator.__init__ __init__].
    eexists. rewrite !append_assoc. cbn [append]. reflexivity.
  - cbn [_build_osc_connection config config_host config_port event __init__].
    destruct (network ev) as [[[hub|] ? ? ? ?]|]; reflexivity.
Qed.

(** C5: the scenario of three cues, one per show phase, and one
    microphone on channel 1: the cue buttons are at rows 1, 2 and 3 of
    column 0, the cue sequence of the checklist ends with the lines of
    Q1, Q2 and Q3 in this order, and the mute and unmute buttons send the
    integers 1 and 0 to /avantis/ch/1/mix/mute. *)
Theorem recital_scenario (ev : Event) (c1 c2 c3 : Cue) (a : Audio)
    (mic : Microphone) :
  cues ev = Some [ c1; c2; c3 ] ->
  cue_number c1 = Some (VInt 1) -> cue_timing c1 = Some (VStr "pre-show") ->
  cue_number c2 = Some (VInt 2) -> cue_timing c2 = Some (VStr "show") ->
  cue_number c3 = Some (VInt 3) -> cue_timing c3 = Some (VStr "post-show") ->
  audio ev = Some a -> audio_microphones a = Some [ mic ] ->
  mic_input_channel mic = Some (VInt 1) ->
  let page_1 := buttons (_build_show_control_page (__init__ ev)) in
  let page_2 := buttons (_build_av_control_page (__init__ ev)) in
  let send_integer v :=
    {| actionId := "osc:send_integer";
       options := {| path := "/avantis/ch/1/mix/mute"; value := Some (VInt v) |} |} in
  dict_get page_1 (coord 1 0) = Some (_make_cue_button c1) /\
  dict_get page_1 (coord 2 0) = Some (_make_cue_button c2) /\
  dict_get page_1 (coord 3 0) = Some (_make_cue_button c3) /\
  (exists head r1 r2 r3,
     ChecklistGenerator._show_time (ChecklistGenerator.__init__ ev) =
     head ++ nl ++ "- [ ] **Q1**" ++ r1 ++ nl ++ "- [ ] **Q2**" ++ r2 ++ nl ++
     "- [ ] **Q3**" ++ r3 ++ nl /\
     ChecklistGenerator.cue_line c1 = "- [ ] **Q1**" ++ r1 /\
     ChecklistGenerator.cue_line c2 = "- [ ] **Q2**" ++ r2 /\
     ChecklistGenerator.cue_line c3 = "- [ ] **Q3**" ++ r3) /\
  (exists b, dict_get page_2 (coord 2 1) = Some b /\
             steps b = one_step [ send_integer 1%Z ]) /\
  (exists b, dict_get page_2 (coord 2 2) = Some b /\
             steps b = one_step [ send_integer 0%Z ]).
Proof.
  intros Hcues Hn1 Ht1 Hn2 Ht2 Hn3 Ht3 Ha Hm Hch. cbv zeta.
  assert (Hpage :
    buttons (_build_show_control_page (__init__ ev)) =
    dict_set (dict_set (dict_set (show_control_header (__init__ ev))
      (coord 1 0) (_make_cue_button c1))
      (coord 2 0) (_make_cue_button c2))
      (coord 3 0) (_make_cue_button c3)).
  { cbn [_build_show_control_page buttons].
    unfold after_post_show, after_show, after_pre_show,
      pre_show_of, show_cues_of, post_show_of.
    cbn [event __init__]. rewrite Hcues. cbn [get_or filter].
    rewrite Ht1, Ht2, Ht3.
    reflexivity. }
  rewrite Hpage. clear Hpage.
  rewrite !dict_get_set, !coord_eqb. cbn [Nat.eqb andb].
  split; [reflexivity |]. split; [reflexivity |]. split; [reflexivity |].
  split; [| split].
  - exists (String.concat nl ChecklistGenerator.show_time_heading).
    exists (" " ++ get_or "Untitled" (cue_name c1) ++ " [" ++
            get_or "unknown" (cue_type c1) ++ "] @ pre-show").
    exists (" " ++ get_or "Untitled" (cue_name c2) ++ " [" ++
            get_or "unknown" (cue_type c2) ++ "] @ show").
    exists (" " ++ get_or "Untitled" (cue_name c3) ++ " [" ++
            get_or "unknown" (cue_type c3) ++ "] @ post-show").
    assert (H1 : ChecklistGenerator.cue_line c1 =
                 "- [ ] **Q1**" ++ " " ++ get_or "Untitled" (cue_name c1) ++ " [" ++
                 get_or "unknown" (cue_type c1) ++ "] @ pre-show").
    { unfold ChecklistGenerator.cue_line. rewrite Hn1, Ht1. reflexivity. }
    assert (H2 : ChecklistGenerator.cue_line c2 =
                 "- [ ] **Q2**" ++ " " ++ get_or "Untitled" (cue_name c2) ++ " [" ++
                 get_or "unknown" (cue_type c2) ++ "] @ show").
    { unfold ChecklistGenerator.cue_line. rewrite Hn2, Ht2. reflexivity. }
    assert (H3 : ChecklistGenerator.cue_line c3 =
                 "- [ ] **Q3**" ++ " " ++ get_or "Untitled" (cue_name c3) ++ " [" ++
                 get_or "unknown" (cue_type c3) ++ "] @ post-show").
    { unfold ChecklistGenerator.cue_line. rewrite Hn3, Ht3. reflexivity. }
    split; [| now repeat split].
    unfold ChecklistGenerator._show_time, ChecklistGenerator.join_lines, list_append.
    cbn [ChecklistGenerator.event ChecklistGenerator.__init__].
    rewrite Hcues. cbn [get_or fold_left].
    rewrite <- !app_assoc. cbn [List.app].
    rewrite concat_app by discriminate.
    cbn [String.concat]. rewrite H1, H2, H3, append_nil_r, !append_assoc.
    reflexivity.
  - exists (mute_button 0 mic). split.
    + rewrite av_row2. rewrite Ha. cbn [get_or]. rewrite Hm. reflexivity.
    + unfold mute_button, mute_path. rewrite Hch. reflexivity.
  - exists (unmute_button 0 mic). split.
    + rewrite av_row2. rewrite Ha. cbn [get_or]. rewrite Hm. reflexivity.
    + unfold unmute_button, mute_path. rewrite Hch. reflexivity.
Qed.

(** C6: the unmute button of microphone [i] is on row 2 at column
    [i + 1 + len(mics)] exactly when this column is below the grid width
    8; otherwise the page has no button at this coordinate, and the check
    of the document prints the same lines whatever its microphones. *)
Theorem unmute_button_iff_fits (ev : Event) (i : nat) (mic : Microphone) :
  let mics := get_or [] (audio_microphones (get_or empty_Audio (audio ev))) in
  let page := buttons (_build_av_control_page (__init__ ev)) in
  let unmute_col := i + 1 + List.length mics in
  nth_error mics i = Some mic ->
  (dict_get page (coord 2 unmute_col) = Some (unmute_button i mic) <->
   unmute_col < 8) /\
  (8 <= unmute_col -> dict_get page (coord 2 unmute_col) = None) /\
  (forall (a : option Audio) (yaml_path : string),
     fst (Generate.load_event (fun _ => Some (with_audio ev a)) yaml_path) =
     fst (Generate.load_event (fun _ => Some ev) yaml_path)).
Proof.
  cbv zeta. intros Hmic.
  set (mics := get_or [] (audio_microphones (get_or empty_Audio (audio ev)))) in *.
  assert (Hget :
    dict_get (buttons (_build_av_control_page (__init__ ev)))
      (coord 2 (i + 1 + List.length mics)) =
    if (i + 1 + List.length mics <? 8)%nat then Some (unmute_button i mic) else None).
  { rewrite av_row2. fold mics.
    replace (i + 1 + List.length mics) with (S (i + List.length mics)) by lia.
    assert (Hnone : nth_error mics (i + List.length mics) = None)
      by (apply nth_error_None; lia).
    rewrite Hnone.
    replace (List.length mics <? S (i + List.length mics))%nat with true
      by (symmetry; apply Nat.ltb_lt; lia).
    replace (i + List.length mics - List.length mics) with i by lia.
    rewrite Hmic. cbn [andb option_map].
    destruct (S (i + List.length mics) <? 8)%nat; reflexivity. }
  rewrite Hget. split; [| split].
  - destruct (Nat.ltb_spec (i + 1 + List.length mics) 8); split;
      intros; try reflexivity; try discriminate; lia.
  - intros H. destruct (Nat.ltb_spec (i + 1 + List.length mics) 8); [lia | reflexivity].
  - intros. apply load_event_ignores_audio.
Qed.

(** C7: the A/V page has one lighting button per preset for the first
    seven presets and no more: preset [i] below 7 is on row 3 at column
    [i + 1] with the single action without arguments addressed to
    /lights/exec/{i+1}, and row 3 holds nothing past column 7. *)
Theorem lighting_presets_capped (ev : Event) :
  let presets :=
    get_or [] (lighting_presets (get_or empty_Lighting (lighting ev))) in
  let page := buttons (_build_av_control_page (__init__ ev)) in
  count_buttons (has_style "lighting") page = Nat.min 7 (List.length presets) /\
  count_buttons (has_style "lighting") page <= 7 /\
  (forall (i : nat) (preset : LightingPreset),
     i < 7 -> nth_error presets i = Some preset ->
     exists b,
       dict_get page (coord 3 (i + 1)) = Some b /\
       has_style "lighting" b = true /\
       steps b =
       one_step
         [ {| actionId := "osc:send_no_args";
              options := {| path := "/lights/exec/" ++ str_of_nat (i + 1);
                            value := None |} |} ]) /\
  (forall c : nat, 7 < c -> dict_get page (coord 3 c) = None).
Proof.
  cbv zeta.
  set (presets := get_or [] (lighting_presets (get_or empty_Lighting (lighting ev)))).
  assert (Hcount :
    count_buttons (has_style "lighting")
      (buttons (_build_av_control_page (__init__ ev))) =
    Nat.min 7 (List.length presets)).
  { cbn [_build_av_control_page buttons]. unfold after_presets, enumerate. cbv zeta.
    rewrite (row_loop_count (has_style "lighting") preset_step 3 preset_button).
    - rewrite before_presets_count, length_firstn. reflexivity.
    - apply preset_step_eq.
    - reflexivity.
    - intros c Hc. now apply before_presets_row3. }
  split; [exact Hcount |]. split; [rewrite Hcount; apply Nat.le_min_l |]. split.
  - intros i preset Hi Hp. exists (preset_button i preset). split; [| split].
    + replace (i + 1) with (S i) by lia. rewrite av_row3.
      fold presets. rewrite nth_error_firstn.
      replace (i <? 7)%nat with true by (symmetry; apply Nat.ltb_lt; lia).
      now rewrite Hp.
    + reflexivity.
    + reflexivity.
  - intros c Hc. destruct c as [|i]; [lia |]. rewrite av_row3. fold presets.
    rewrite nth_error_firstn.
    replace (i <? 7)%nat with false by (symmetry; apply Nat.ltb_ge; lia).
    reflexivity.
Qed.

(** C10: camera buttons and mute buttons are written for every index:
    camera [i] is on row 1 at column [i + 1] and the mute button of
    microphone [i] on row 2 at column [i + 1], also when this column is 8
    or more, past the 8 columns the page declares; past the grid, row 2
    holds mute buttons only and row 3 holds nothing. *)
Theorem camera_and_mute_buttons_not_truncated (ev : Event) (i : nat) :
  let cameras := get_or [] (video_cameras (get_or empty_Video (video ev))) in
  let mics := get_or [] (audio_microphones (get_or empty_Audio (audio ev))) in
  let page := _build_av_control_page (__init__ ev) in
  columns (gridSize page) = 8 /\
  (forall cam : Camera,
     nth_error cameras i = Some cam ->
     dict_get (buttons page) (coord 1 (i + 1)) = Some (camera_button i cam)) /\
  (forall mic : Microphone,
     nth_error mics i = Some mic ->
     dict_get (buttons page) (coord 2 (i + 1)) = Some (mute_button i mic)) /\
  (forall c : nat,
     8 <= c ->
     dict_get (buttons page) (coord 2 c) =
       option_map (mute_button (c - 1)) (nth_error mics (c - 1)) /\
     dict_get (buttons page) (coord 3 c) = None).
Proof.
  cbv zeta. split; [reflexivity |]. split; [| split].
  - intros cam Hcam. replace (i + 1) with (S i) by lia.
    rewrite av_row1. now rewrite Hcam.
  - intros mic Hmic. replace (i + 1) with (S i) by lia.
    rewrite av_row2. now rewrite Hmic.
  - intros c Hc. destruct c as [|j]; [lia |]. split.
    + rewrite av_row2. cbn [Nat.sub]. rewrite Nat.sub_0_r.
      destruct (nth_error _ j); [reflexivity |].
      replace (S j <? 8)%nat with false by (symmetry; apply Nat.ltb_ge; lia).
      now rewrite andb_false_r.
    + rewrite av_row3, nth_error_firstn.
      replace (j <? 7)%nat with false by (symmetry; apply Nat.ltb_ge; lia).
      reflexivity.
Qed.

(** C8: on a document that is there, [load_event] ends the process, with
    status 1 and before any generator has run, exactly when the
    [event_type] key or the [cues] key is absent.  Otherwise it returns
    the document as it is and the run goes on to write its files and to
    end with status 0, whatever the addresses of the hub actions and
    whether or not the hub is configured: a hub action with an unknown
    prefix and a missing hub entry each add a warning line only. *)
Theorem load_event_fatal_iff_key_absent (fs : Generate.filesystem)
    (yaml_path output_dir : string) (data : Event)
    (now : ChecklistGenerator.datetime) (only : option (list string)) :
  fs yaml_path = Some data ->
  let result := Generate.load_event fs yaml_path in
  let run :=
    Generate.main QLabGenerator_generate TouchDesignerGenerator_generate
      fs now yaml_path output_dir in
  (snd result = Generate.Exit 1 <-> event_type data = None \/ cues data = None) /\
  (event_type data = None \/ cues data = None -> run only = ([], 1%Z)) /\
  (event_type data <> None -> cues data <> None ->
   snd result = Generate.Return data /\
   snd (run only) = 0%Z /\
   List.length (fst (run None)) = 4 /\
   forall (cue : Cue) (action : HubAction),
     In cue (get_or [] (cues data)) ->
     In action (get_or [] (cue_hub_actions cue)) ->
     (known_address action = false ->
      In (unknown_prefix_warning cue action) (fst result)) /\
     (net_hub (get_or empty_Network (network data)) = None ->
      In missing_hub_warning (fst result))).
Proof.
  intros Hfs. cbv zeta.
  unfold Generate.main, Generate.load_event. rewrite Hfs.
  unfold Generate.required_keys. cbn [find snd].
  destruct (event_type data) as [ty|] eqn:Hty; cbn [Generate.is_some negb].
  2:{ cbn [snd fst]. repeat split; auto; try congruence. }
  destruct (cues data) as [cs|] eqn:Hcs; cbn [Generate.is_some negb].
  2:{ cbn [snd fst]. repeat split; auto; try congruence. }
  cbn [get_or].
  destruct (fold_left Generate.check_cue cs ([], false)) as [out flag] eqn:Hfold.
  cbn [snd fst]. split; [| split].
  - split; [discriminate | intros [H | H]; discriminate].
  - intros [H | H]; discriminate.
  - intros _ _. split; [reflexivity |]. split; [| split].
    + destruct only as [[|x l]|]; reflexivity.
    + unfold list_append. cbn. reflexivity.
    + intros cue action Hcue Haction.
      destruct (check_cues_in cs cue action ([], false) Hcue Haction) as [Hflag Hwarn].
      rewrite Hfold in Hflag, Hwarn. cbn [fst snd] in Hflag, Hwarn. subst flag.
      split.
      * intros Hu. destruct (_ && _); unfold list_append;
          [apply in_or_app; left |]; now apply Hwarn.
      * intros ->. cbn [Generate.is_some negb andb]. unfold list_append.
        apply in_or_app. right. now left.
Qed.

(** C9: the master GO and STOP buttons, at row 0, columns 2 and 3 of the
    Show Control page, carry no action, their steps mapping being empty,
    while every cue button carries at least one action and so does every
    button of the A/V page that is not a header. *)
Theorem go_and_stop_carry_no_action (ev : Event) :
  let page_1 := buttons (_build_show_control_page (__init__ ev)) in
  let page_2 := buttons (_build_av_control_page (__init__ ev)) in
  dict_get page_1 (coord 0 2) = Some _make_go_button /\
  dict_get page_1 (coord 0 3) = Some _make_stop_button /\
  steps _make_go_button = [] /\
  steps _make_stop_button = [] /\
  (forall cue : Cue, has_actions (_make_cue_button cue) = true) /\
  Forall (fun kb => show_topbar (style (snd kb)) = false \/
                    has_actions (snd kb) = true) page_2.
Proof.
  cbv zeta. repeat split.
  - rewrite show_page_row0. unfold show_control_header. cbv zeta.
    rewrite (key_coord "0,3" 0 3), (key_coord "0,2" 0 2) by reflexivity.
    reflexivity.
  - rewrite show_page_row0. unfold show_control_header. cbv zeta.
    rewrite (key_coord "0,3" 0 3) by reflexivity. reflexivity.
  - apply cue_button_has_actions.
  - set (P := fun b : Button =>
                show_topbar (style b) = false \/ has_actions b = true).
    change (Forall (fun kb => P (snd kb))
              (buttons (_build_av_control_page (__init__ ev)))).
    cbn [_build_av_control_page buttons]. unfold after_presets. cbv zeta.
    apply fold_Forall.
    { intros b [i p] Hb. apply dict_set_Forall; [assumption | right; reflexivity]. }
    apply dict_set_Forall; [| left; reflexivity].
    unfold after_microphones. cbv zeta.
    apply fold_Forall.
    { intros b [i m] Hb. unfold microphone_step.
      destruct (i + 1 + _ <? _)%nat.
      - apply dict_set_Forall; [| right; reflexivity].
        apply dict_set_Forall; [assumption | right; reflexivity].
      - apply dict_set_Forall; [assumption | right; reflexivity]. }
    apply dict_set_Forall; [| left; reflexivity].
    unfold after_cameras. cbv zeta.
    apply fold_Forall.
    { intros b [i c] Hb. apply dict_set_Forall; [assumption | right; reflexivity]. }
    apply dict_set_Forall; [| left; reflexivity].
    apply dict_set_Forall; [constructor | left; reflexivity].
Qed.
End Statements.

(** C1 (as stated) fails: the same document compiled on two consecutive
    days gives two different checklists. *)
Lemma checklist_differs_across_days :
  ChecklistGenerator.generate (rt := plain_runtime)
    (ChecklistGenerator.__init__ recital) fifth <>
  ChecklistGenerator.generate (rt := plain_runtime)
    (ChecklistGenerator.__init__ recital) sixth.
Proof.
  intros H. apply checklist_date_inj in H. vm_compute in H. discriminate H.
Qed.

(** C3 (as stated) fails on a boolean argument: the claim sends it, as any
    value that is neither a float, an integer nor a string, in the string
    variant, and the code sends it in the integer variant. *)
Lemma boolean_argument_sent_as_integer :
  _hub_actions_to_osc (rt := plain_runtime) [ mute_all ] =
    [ {| actionId := "osc:send_integer";
         options := {| path := "/avantis/ch/1/mix/mute";
                       value := Some (VBool true) |} |} ] /\
  _hub_actions_to_osc (rt := plain_runtime) [ mute_all ] <>
    map (described_action (rt := plain_runtime)) [ mute_all ].
Proof.
  split; [reflexivity | vm_compute; discriminate].
Qed.

(** ** The claims at sample documents *)

(** C1 at the recital document and one date. *)
Lemma checklist_same_iff_same_date_witness :
  ChecklistGenerator.strftime_Ymd fifth = ChecklistGenerator.strftime_Ymd fifth /\
  ChecklistGenerator.generate (rt := plain_runtime)
    (ChecklistGenerator.__init__ recital) fifth =
  ChecklistGenerator.generate (rt := plain_runtime)
    (ChecklistGenerator.__init__ recital) fifth.
Proof.
  split; [reflexivity |].
  exact (proj2
           (proj1
              (checklist_same_iff_same_date (rt := plain_runtime)
                 (fun _ _ => "") (fun _ _ => "") recital fifth fifth
                 (holding recital) "show.yaml" "output"))
           eq_refl).
Defined.

(** C5 at the recital document. *)
Lemma recital_scenario_witness :
  cues recital = Some [ cue 1 "pre-show"; cue 2 "show"; cue 3 "post-show" ] /\
  mic_input_channel (microphone 1) = Some (VInt 1) /\
  dict_get
    (buttons (_build_show_control_page (rt := plain_runtime) (__init__ recital)))
    (coord 1 0) =
  Some (_make_cue_button (rt := plain_runtime) (cue 1 "pre-show")).
Proof.
  split; [reflexivity |]. split; [reflexivity |].
  exact (proj1
           (recital_scenario (rt := plain_runtime) recital
              (cue 1 "pre-show") (cue 2 "show") (cue 3 "post-show")
              {| audio_microphones := Some [ microphone 1 ];
                 audio_recording := None |}
              (microphone 1)
              eq_refl eq_refl eq_refl eq_refl eq_refl eq_refl eq_refl
              eq_refl eq_refl eq_refl)).
Defined.

(** C6 at the recital document: one microphone, its unmute button at
    column 2. *)
Lemma unmute_button_iff_fits_witness :
  nth_error [ microphone 1 ] 0 = Some (microphone 1) /\
  (dict_get
     (buttons (_build_av_control_page (rt := plain_runtime) (__init__ recital)))
     (coord 2 2) =
   Some (unmute_button (rt := plain_runtime) 0 (microphone 1)) <-> 2 < 8).
Proof.
  split; [reflexivity |].
  exact (proj1
           (unmute_button_iff_fits (rt := plain_runtime) recital 0 (microphone 1)
              eq_refl)).
Defined.

(** C7 at a document with eight presets: seven lighting buttons, and
    nothing at row 3, column 8. *)
Lemma lighting_presets_capped_witness :
  7 < 8 /\
  count_buttons (has_style "lighting")
    (buttons (_build_av_control_page (rt := plain_runtime) (__init__ crowded))) = 7 /\
  dict_get
    (buttons (_build_av_control_page (rt := plain_runtime) (__init__ crowded)))
    (coord 3 8) = None.
Proof.
  split; [exact (le_n 8) |]. split.
  - exact (proj1 (lighting_presets_capped (rt := plain_runtime) crowded)).
  - exact (proj2 (proj2 (proj2 (lighting_presets_capped (rt := plain_runtime) crowded)))
             8 (le_n 8)).
Defined.

(** C8 at a document whose second hub action has an unknown prefix and
    which has no hub entry: the document is returned, with the warning. *)
Lemma load_event_fatal_iff_key_absent_witness :
  holding routed "show.yaml" = Some routed /\
  snd (Generate.load_event (rt := plain_runtime) (holding routed) "show.yaml") =
    Generate.Return routed /\
  In (unknown_prefix_warning (rt := plain_runtime)
        (cue_with [ fade_up; unknown_route ]) unknown_route)
     (fst (Generate.load_event (rt := plain_runtime) (holding routed) "show.yaml")).
Proof.
  split; [reflexivity |].
  pose (H := proj2 (proj2
               (load_event_fatal_iff_key_absent (rt := plain_runtime)
                  (fun _ _ => "") (fun _ _ => "")
                  (holding routed) "show.yaml" "output" routed fifth None eq_refl))
             ltac:(discriminate) ltac:(discriminate)).
  split.
  - exact (proj1 H).
  - exact (proj1
             (proj2 (proj2 (proj2 H))
                (cue_with [ fade_up; unknown_route ]) unknown_route
                (or_introl eq_refl) (or_intror (or_introl eq_refl)))
             eq_refl).
Defined.

(** C10 at a document with eight cameras: the eighth is at column 8. *)
Lemma camera_and_mute_buttons_not_truncated_witness :
  nth_error
    (map camera [ "cam1"; "cam2"; "cam3"; "cam4"; "cam5"; "cam6"; "cam7"; "cam8" ])
    7 = Some (camera "cam8") /\
  dict_get
    (buttons (_build_av_control_page (rt := plain_runtime) (__init__ crowded)))
    (coord 1 8) =
  Some (camera_button (rt := plain_runtime) 7 (camera "cam8")).
Proof.
  split; [reflexivity |].
  exact (proj1
           (proj2
              (camera_and_mute_buttons_not_truncated (rt := plain_runtime) crowded 7))
           (camera "cam8") eq_refl).
Defined.

End Claims.

(** * Further properties of the generators

    ** The cue loops of the Show Control page *)

Module ShowPageFacts.
Import Notions Facts LoopFacts PageFacts CompanionGenerator.
#[local] Arguments coord : simpl never.
#[local] Arguments _make_button : simpl never.
#[local] Arguments _make_cue_button : simpl never.

Section CueLoops.
Context {rt : Runtime}.

(** A cue loop started at row [r], column [c] writes its [j]-th cue at the
    cell number [r * 8 + c + j] of the grid read row by row, whatever the
    length of the list; it writes nothing before this cell and no column
    past 7. *)
Lemma place_cues_get (self : t) (l : list Cue) :
  grid_cols self = 8 ->
  forall (b : dict Button) (r c : nat) (b' : dict Button) (r1 c1 : nat),
    c <= 8 ->
    fold_left (place_cue self) l (b, r, c) = (b', r1, c1) ->
    forall r' c' : nat,
      dict_get b' (coord r' c') =
      if (c' <? 8)%nat && (r * 8 + c <=? r' * 8 + c')%nat then
        match nth_error l (r' * 8 + c' - (r * 8 + c)) with
        | Some cue => Some (_make_cue_button cue)
        | None => dict_get b (coord r' c')
        end
      else dict_get b (coord r' c').
Proof.
  intros Hgc. induction l as [|x l IH]; intros b r c b' r1 c1 Hc H r' c'.
  - cbn [fold_left] in H. injection H as <- _ _.
    destruct (r' * 8 + c' - (r * 8 + c)); cbn [nth_error];
      destruct ((c' <? 8)%nat && (r * 8 + c <=? r' * 8 + c')%nat); reflexivity.
  - cbn [fold_left place_cue] in H. rewrite Hgc in H.
    destruct (Nat.leb_spec 8 c) as [Hwrap | Hfit].
    + assert (Hc2 : 0 + 1 <= 8) by lia.
      rewrite (IH _ _ _ _ _ _ Hc2 H r' c').
      rewrite dict_get_set, coord_eqb.
      destruct (Nat.ltb_spec c' 8) as [Hc' | Hc']; cbn [andb].
      * destruct (Nat.leb_spec (r * 8 + c) (r' * 8 + c')) as [Hle | Hgt].
        -- destruct (Nat.eqb_spec (r + 1) r') as [<- | Hr];
             destruct (Nat.eqb_spec 0 c') as [<- | Hc0]; cbn [andb].
           ++ replace ((r + 1) * 8 + (0 + 1) <=? (r + 1) * 8 + 0)%nat with false
                by (symmetry; apply Nat.leb_gt; lia).
              replace ((r + 1) * 8 + 0 - (r * 8 + c)) with 0 by lia. reflexivity.
           ++ replace ((r + 1) * 8 + (0 + 1) <=? (r + 1) * 8 + c')%nat with true
                by (symmetry; apply Nat.leb_le; lia).
              replace ((r + 1) * 8 + c' - (r * 8 + c))
                with (S ((r + 1) * 8 + c' - ((r + 1) * 8 + (0 + 1)))) by lia.
              reflexivity.
           ++ replace ((r + 1) * 8 + (0 + 1) <=? r' * 8 + 0)%nat with true
                by (symmetry; apply Nat.leb_le; lia).
              replace (r' * 8 + 0 - (r * 8 + c))
                with (S (r' * 8 + 0 - ((r + 1) * 8 + (0 + 1)))) by lia.
              reflexivity.
           ++ replace ((r + 1) * 8 + (0 + 1) <=? r' * 8 + c')%nat with true
                by (symmetry; apply Nat.leb_le; lia).
              replace (r' * 8 + c' - (r * 8 + c))
                with (S (r' * 8 + c' - ((r + 1) * 8 + (0 + 1)))) by lia.
              reflexivity.
        -- replace ((r + 1) * 8 + (0 + 1) <=? r' * 8 + c')%nat with false
             by (symmetry; apply Nat.leb_gt; lia).
           replace ((r + 1 =? r')%nat && (0 =? c')%nat) with false; [reflexivity |].
           symmetry. apply andb_false_iff.
           destruct (Nat.eqb_spec (r + 1) r'); [right; apply Nat.eqb_neq; lia | now left].
      * replace ((r + 1 =? r')%nat && (0 =? c')%nat) with false; [reflexivity |].
        symmetry. apply andb_false_iff. right. apply Nat.eqb_neq. lia.
    + assert (Hc2 : c + 1 <= 8) by lia.
      rewrite (IH _ _ _ _ _ _ Hc2 H r' c').
      rewrite dict_get_set, coord_eqb.
      destruct (Nat.ltb_spec c' 8) as [Hc' | Hc']; cbn [andb].
      * destruct (Nat.leb_spec (r * 8 + c) (r' * 8 + c')) as [Hle | Hgt].
        -- destruct (Nat.eqb_spec r r') as [<- | Hr];
             destruct (Nat.eqb_spec c c') as [<- | Hc0]; cbn [andb].
           ++ replace (r * 8 + (c + 1) <=? r * 8 + c)%nat with false
                by (symmetry; apply Nat.leb_gt; lia).
              replace (r * 8 + c - (r * 8 + c)) with 0 by lia. reflexivity.
           ++ replace (r * 8 + (c + 1) <=? r * 8 + c')%nat with true
                by (symmetry; apply Nat.leb_le; lia).
              replace (r * 8 + c' - (r * 8 + c))
                with (S (r * 8 + c' - (r * 8 + (c + 1)))) by lia.
              reflexivity.
           ++ replace (r * 8 + (c + 1) <=? r' * 8 + c)%nat with true
                by (symmetry; apply Nat.leb_le; lia).
              replace (r' * 8 + c - (r * 8 + c))
                with (S (r' * 8 + c - (r * 8 + (c + 1)))) by lia.
              reflexivity.
           ++ replace (r * 8 + (c + 1) <=? r' * 8 + c')%nat with true
                by (symmetry; apply Nat.leb_le; lia).
              replace (r' * 8 + c' - (r * 8 + c))
                with (S (r' * 8 + c' - (r * 8 + (c + 1)))) by lia.
              reflexivity.
        -- replace (r * 8 + (c + 1) <=? r' * 8 + c')%nat with false
             by (symmetry; apply Nat.leb_gt; lia).
           replace ((r =? r')%nat && (c =? c')%nat) with false; [reflexivity |].
           symmetry. apply andb_false_iff.
           destruct (Nat.eqb_spec r r'); [right; apply Nat.eqb_neq; lia | now left].
      * replace ((r =? r')%nat && (c =? c')%nat) with false; [reflexivity |].
        symmetry. apply andb_false_iff. right. apply Nat.eqb_neq. lia.
Qed.

(** The Show Control page, cell by cell: the post-show loop wrote last,
    the show loop before it, the pre-show loop first. *)
Lemma show_page_get (ev : Event) (r' c' : nat) :
  let cues := get_or [] (cues ev) in
  let cell := r' * 8 + c' in
  let written (first : nat) (bucket : list Cue) :=
    if (c' <? 8)%nat && (first <=? cell)%nat
    then nth_error bucket (cell - first) else None in
  dict_get (buttons (_build_show_control_page (__init__ ev))) (coord r' c') =
  match written 24 (post_show_of cues) with
  | Some cue => Some (_make_cue_button cue)
  | None =>
      match written 16 (show_cues_of cues) with
      | Some cue => Some (_make_cue_button cue)
      | None =>
          match written 8 (pre_show_of cues) with
          | Some cue => Some (_make_cue_button cue)
          | None => dict_get (show_control_header (__init__ ev)) (coord r' c')
          end
      end
  end.
Proof.
  cbv zeta. cbn [_build_show_control_page buttons].
  unfold after_post_show, after_show, after_pre_show. cbn [event __init__].
  destruct (fold_left (place_cue (__init__ ev)) (pre_show_of _) _)
    as [[b1 r1] c1] eqn:E1.
  destruct (fold_left (place_cue (__init__ ev)) (show_cues_of _) _)
    as [[b2 r2] c2] eqn:E2.
  destruct (fold_left (place_cue (__init__ ev)) (post_show_of _) _)
    as [[b3 r3] c3] eqn:E3.
  rewrite (place_cues_get (__init__ ev) _ eq_refl _ _ _ _ _ _ (Nat.le_0_l 8) E3 r' c').
  rewrite (place_cues_get (__init__ ev) _ eq_refl _ _ _ _ _ _ (Nat.le_0_l 8) E2 r' c').
  rewrite (place_cues_get (__init__ ev) _ eq_refl _ _ _ _ _ _ (Nat.le_0_l 8) E1 r' c').
  change (3 * 8 + 0) with 24. change (2 * 8 + 0) with 16. change (1 * 8 + 0) with 8.
  destruct ((c' <? 8)%nat && (24 <=? r' * 8 + c')%nat),
    ((c' <? 8)%nat && (16 <=? r' * 8 + c')%nat),
    ((c' <? 8)%nat && (8 <=? r' * 8 + c')%nat); reflexivity.
Qed.
End CueLoops.
End ShowPageFacts.

Module ShowPageExtras.
Import Notions Warnings Samples Facts LoopFacts PageFacts AvPageFacts RunFacts.
Import ShowPageFacts.
Import CompanionGenerator.
#[local] Arguments coord : simpl never.
#[local] Arguments _make_button : simpl never.
#[local] Arguments _make_cue_button : simpl never.

Section ShowControl.
Context {rt : Runtime}.

(** X1: when neither the pre-show nor the show bucket holds more than 8
    cues, every pre-show cue [j] has its button at row 1, column [j] and
    every show cue [j] at row 2, column [j]. *)
Theorem buckets_within_a_row_keep_every_cue (ev : Event) :
  let cues := get_or [] (cues ev) in
  let page := buttons (_build_show_control_page (__init__ ev)) in
  List.length (pre_show_of cues) <= 8 ->
  List.length (show_cues_of cues) <= 8 ->
  (forall (j : nat) (cue : Cue),
     nth_error (pre_show_of cues) j = Some cue ->
     dict_get page (coord 1 j) = Some (_make_cue_button cue)) /\
  (forall (j : nat) (cue : Cue),
     nth_error (show_cues_of cues) j = Some cue ->
     dict_get page (coord 2 j) = Some (_make_cue_button cue)).
Proof.
  cbv zeta. intros Hpre Hshow. split; intros j cue Hj.
  - assert (Hlt : j < 8).
    { apply Nat.lt_le_trans with (2 := Hpre). apply nth_error_Some. congruence. }
    rewrite show_page_get. cbv zeta.
    replace (j <? 8)%nat with true by (symmetry; apply Nat.ltb_lt; lia).
    replace (24 <=? 1 * 8 + j)%nat with false by (symmetry; apply Nat.leb_gt; lia).
    replace (16 <=? 1 * 8 + j)%nat with false by (symmetry; apply Nat.leb_gt; lia).
    replace (8 <=? 1 * 8 + j)%nat with true by (symmetry; apply Nat.leb_le; lia).
    cbn [andb]. replace (1 * 8 + j - 8) with j by lia. now rewrite Hj.
  - assert (Hlt : j < 8).
    { apply Nat.lt_le_trans with (2 := Hshow). apply nth_error_Some. congruence. }
    rewrite show_page_get. cbv zeta.
    replace (j <? 8)%nat with true by (symmetry; apply Nat.ltb_lt; lia).
    replace (24 <=? 2 * 8 + j)%nat with false by (symmetry; apply Nat.leb_gt; lia).
    replace (16 <=? 2 * 8 + j)%nat with true by (symmetry; apply Nat.leb_le; lia).
    cbn [andb]. replace (2 * 8 + j - 16) with j by lia. now rewrite Hj.
Qed.


(** X3: the post-show bucket is never cut and never overwritten: its cue
    [j] is at row [3 + j / 8], column [j mod 8], which from the ninth cue
    on is a row past the 4 rows the page declares. *)
Theorem post_show_cues_run_past_the_grid (ev : Event) (j : nat) (cue : Cue) :
  let cues := get_or [] (cues ev) in
  let page := _build_show_control_page (__init__ ev) in
  nth_error (post_show_of cues) j = Some cue ->
  dict_get (buttons page) (coord (3 + j / 8) (j mod 8)) = Some (_make_cue_button cue) /\
  (8 <= j -> rows (gridSize page) <= 3 + j / 8).
Proof.
  cbv zeta. intros Hj. split.
  - rewrite show_page_get. cbv zeta.
    assert (Hmod : j mod 8 < 8) by (apply Nat.mod_upper_bound; lia).
    assert (Hcell : (3 + j / 8) * 8 + j mod 8 = 24 + j).
    { pose proof (Nat.div_mod_eq j 8). lia. }
    rewrite Hcell.
    replace (j mod 8 <? 8)%nat with true by (symmetry; apply Nat.ltb_lt; lia).
    replace (24 <=? 24 + j)%nat with true by (symmetry; apply Nat.leb_le; lia).
    cbn [andb]. replace (24 + j - 24) with j by lia. now rewrite Hj.
  - intros H8. cbn [_build_show_control_page gridSize rows grid_rows __init__].
    assert (1 <= j / 8) by (apply Nat.div_le_lower_bound; lia). lia.
Qed.

(** Only a string equal to the name of a bucket selects it. *)
Lemma eq_str_exclusive (o : option pyval) :
  eq_str o "pre-show" && eq_str o "post-show" = false.
Proof.
  destruct o as [[| | | |s| |]|]; try reflexivity. cbn [eq_str].
  destruct (String.eqb_spec s "pre-show") as [-> |]; reflexivity.
Qed.

(** X4: the three buckets split the cue list: every cue is in exactly one
    of them, and a cue whose timing is absent or is none of the two bucket
    names, whatever its type, is a show cue. *)
Theorem buckets_split_the_cues (cue_list : list Cue) :
  List.length (pre_show_of cue_list) + List.length (show_cues_of cue_list) +
  List.length (post_show_of cue_list) = List.length cue_list /\
  (forall cue : Cue,
     In cue (show_cues_of cue_list) <->
     In cue cue_list /\
     cue_timing cue <> Some (VStr "pre-show") /\
     cue_timing cue <> Some (VStr "post-show")).
Proof.
  split.
  - unfold pre_show_of, show_cues_of, post_show_of.
    induction cue_list as [|c l IH]; [reflexivity |]. cbn [filter List.length].
    pose proof (eq_str_exclusive (cue_timing c)) as Hx.
    destruct (eq_str (cue_timing c) "pre-show"),
      (eq_str (cue_timing c) "post-show"); cbn [negb orb andb List.length] in *;
      try discriminate; lia.
  - intros cue. unfold show_cues_of. rewrite filter_In.
    assert (Heq : forall s, eq_str (cue_timing cue) s = true <->
                            cue_timing cue = Some (VStr s)).
    { intros s. destruct (cue_timing cue) as [[| | | |t| |]|]; cbn [eq_str];
        try (split; [discriminate | congruence]).
      rewrite String.eqb_eq. split; congruence. }
    rewrite negb_true_iff, orb_false_iff, <- !not_true_iff_false, !Heq.
    tauto.
Qed.
End ShowControl.
End ShowPageExtras.

(** ** The output of [load_event] *)

Module LoadEventExtras.
Import Notions MoreNotions Warnings Samples Facts LoopFacts PageFacts AvPageFacts RunFacts.
Import CompanionGenerator.

Section LoadEvent.
Context {rt : Runtime}.

(** The loop over the hub actions of a cue, and the loop over the cues. *)
Lemma check_actions_fold (cue : Cue) (l : list HubAction) :
  forall (out : list string) (flag : bool),
    fold_left (Generate.check_action cue) l (out, flag) =
    ((out ++ map (unknown_prefix_warning cue)
               (filter (fun a => negb (known_address a)) l))%list,
     match l with [] => flag | _ => true end).
Proof.
  induction l as [|a l IH]; intros out flag; cbn [fold_left filter map].
  - now rewrite app_nil_r.
  - unfold Generate.check_action at 2. fold (known_address a).
    destruct (known_address a); cbn [negb]; rewrite IH.
    + destruct l; reflexivity.
    + unfold list_append. cbn [map]. rewrite <- app_assoc. destruct l; reflexivity.
Qed.

Lemma check_cues_fold (l : list Cue) :
  forall (out : list string) (flag : bool),
    fold_left Generate.check_cue l (out, flag) =
    ((out ++ map (fun ca => unknown_prefix_warning (fst ca) (snd ca))
               (filter (fun ca => negb (known_address (snd ca)))
                  (hub_action_pairs l)))%list,
     match hub_action_pairs l with [] => flag | _ => true end).
Proof.
  induction l as [|c l IH]; intros out flag; cbn [fold_left].
  - cbn. now rewrite app_nil_r.
  - unfold Generate.check_cue at 2. rewrite check_actions_fold, IH.
    unfold hub_action_pairs. cbn [flat_map]. fold (hub_action_pairs l).
    rewrite filter_app, map_app, <- app_assoc. f_equal.
    + f_equal. f_equal.
      induction (get_or [] (cue_hub_actions c)) as [|a l' IH']; [reflexivity |].
      cbn [map filter snd]. destruct (known_address a); cbn [negb map fst snd];
        now rewrite IH'.
    + destruct (get_or [] (cue_hub_actions c)); [reflexivity |].
      cbn [map List.app]. now destruct (hub_action_pairs l).
Qed.

(** The lines [load_event] prints for a document with its required keys,
    and what it returns. *)
Lemma load_event_output (fs : Generate.filesystem) (yaml_path : string)
    (data : Event) :
  fs yaml_path = Some data ->
  event_type data <> None ->
  cues data <> None ->
  let pairs := hub_action_pairs (get_or [] (cues data)) in
  fst (Generate.load_event fs yaml_path) =
  (map (fun ca => unknown_prefix_warning (fst ca) (snd ca))
     (filter (fun ca => negb (known_address (snd ca))) pairs) ++
   match pairs, net_hub (get_or empty_Network (network data)) with
   | _ :: _, None => [ missing_hub_warning ]
   | _, _ => []
   end)%list.
Proof.
  intros Hfs Hty Hcs. cbv zeta. unfold Generate.load_event. rewrite Hfs.
  unfold Generate.required_keys. cbn [find snd].
  destruct (event_type data); [| congruence].
  destruct (cues data) as [cs|]; [| congruence].
  cbn [Generate.is_some negb get_or]. rewrite check_cues_fold. cbn [List.app fst].
  destruct (hub_action_pairs cs); cbn [andb fst].
  - now rewrite app_nil_r.
  - destruct (net_hub _); cbn [Generate.is_some negb fst]; [now rewrite app_nil_r |].
    reflexivity.
Qed.

Lemma load_event_returns (fs : Generate.filesystem) (yaml_path : string)
    (data : Event) :
  fs yaml_path = Some data ->
  event_type data <> None ->
  cues data <> None ->
  snd (Generate.load_event fs yaml_path) = Generate.Return data.
Proof.
  intros Hfs Hty Hcs. unfold Generate.load_event. rewrite Hfs.
  unfold Generate.required_keys. cbn [find snd].
  destruct (event_type data); [| congruence].
  destruct (cues data) as [cs|]; [| congruence].
  cbn [Generate.is_some negb get_or].
  now destruct (fold_left Generate.check_cue cs ([], false)).
Qed.

Lemma filter_none {A : Type} (p : A -> bool) (l : list A) :
  (forall x, In x l -> p x = false) -> filter p l = [].
Proof.
  induction l as [|x l IH]; intros H; [reflexivity |]. cbn [filter].
  rewrite (H x (or_introl eq_refl)). apply IH. intros y Hy. apply H. now right.
Qed.

Lemma hub_action_pairs_in (l : list Cue) (ca : Cue * HubAction) :
  In ca (hub_action_pairs l) <->
  In (fst ca) l /\ In (snd ca) (get_or [] (cue_hub_actions (fst ca))).
Proof.
  unfold hub_action_pairs. rewrite in_flat_map. split.
  - intros [cue [Hcue Hin]]. apply in_map_iff in Hin as [a [<- Ha]]. now split.
  - intros [Hcue Ha]. exists (fst ca). split; [assumption |].
    apply in_map_iff. exists (snd ca). split; [now destruct ca | assumption].
Qed.

(** X5: what [load_event] prints for a document that has its two required
    keys: one warning line per hub action whose address starts with no
    known prefix, in document order, then the hub warning when there is at
    least one hub action and [network] has no [hub] entry; nothing else. *)
Theorem load_event_prints_exactly (fs : Generate.filesystem) (yaml_path : string)
    (data : Event) :
  fs yaml_path = Some data ->
  event_type data <> None ->
  cues data <> None ->
  let pairs := hub_action_pairs (get_or [] (cues data)) in
  fst (Generate.load_event fs yaml_path) =
  (map (fun ca => unknown_prefix_warning (fst ca) (snd ca))
     (filter (fun ca => negb (known_address (snd ca))) pairs) ++
   match pairs, net_hub (get_or empty_Network (network data)) with
   | _ :: _, None => [ missing_hub_warning ]
   | _, _ => []
   end)%list.
Proof. apply load_event_output. Qed.

Lemma prefix_append (p s : string) : prefix p (p ++ s) = true.
Proof.
  induction p as [|c p IH]; cbn [append prefix]; [now destruct s |].
  destruct (ascii_dec c c); [assumption | congruence].
Qed.

(** X6: the prefix test is a plain string test: an address that extends a
    known prefix by any text, as /camera does /cam, is taken as known, and
    a hub action without address is not. *)
Theorem known_address_is_a_string_prefix_test :
  (forall (p rest : string) (args : option (list pyval)),
     In p Generate.known_prefixes ->
     known_address {| ha_address := Some (p ++ rest); ha_args := args |} = true) /\
  (forall args : option (list pyval),
     known_address {| ha_address := None; ha_args := args |} = false).
Proof.
  split.
  - intros p rest args Hp. unfold known_address. cbn [ha_address get_or].
    apply existsb_exists. exists p. split; [assumption | apply prefix_append].
  - reflexivity.
Qed.

(** X7: a document whose hub actions all have a known address, and which
    configures the hub or has no hub action, is loaded without a line of
    output. *)
Theorem clean_document_loads_silently (fs : Generate.filesystem) (yaml_path : string)
    (data : Event) :
  fs yaml_path = Some data ->
  event_type data <> None ->
  cues data <> None ->
  (forall (cue : Cue) (action : HubAction),
     In cue (get_or [] (cues data)) ->
     In action (get_or [] (cue_hub_actions cue)) ->
     known_address action = true) ->
  (net_hub (get_or empty_Network (network data)) <> None \/
   hub_action_pairs (get_or [] (cues data)) = []) ->
  Generate.load_event fs yaml_path = ([], Generate.Return data).
Proof.
  intros Hfs Hty Hcs Hknown Hhub.
  rewrite (surjective_pairing (Generate.load_event fs yaml_path)).
  rewrite (load_event_returns _ _ _ Hfs Hty Hcs), (load_event_output _ _ _ Hfs Hty Hcs).
  f_equal.
  replace (filter (fun ca => negb (known_address (snd ca)))
             (hub_action_pairs (get_or [] (cues data)))) with (@nil (Cue * HubAction)).
  - cbn [map List.app]. destruct Hhub as [Hhub | ->]; [| reflexivity].
    destruct (hub_action_pairs _); [reflexivity |].
    destruct (net_hub _); [reflexivity | congruence].
  - symmetry. apply filter_none.
    intros ca Hca. apply hub_action_pairs_in in Hca as [Hcue Ha].
    now rewrite (Hknown _ _ Hcue Ha).
Qed.
End LoadEvent.
End LoadEventExtras.

(** ** Runs of [main] *)

Module MainExtras.
Import Notions MoreNotions Warnings Samples Facts LoopFacts PageFacts AvPageFacts RunFacts.
Import CompanionGenerator.

Section Main.
Context {rt : Runtime}.
Variable QLabGenerator_generate : Event -> ChecklistGenerator.datetime -> string.
Variable TouchDesignerGenerator_generate :
  Event -> ChecklistGenerator.datetime -> string.

Lemma existsb_same_members {A : Type} (p : A -> bool) (l1 l2 : list A) :
  (forall x, In x l1 <-> In x l2) -> existsb p l1 = existsb p l2.
Proof.
  intros H. apply eq_true_iff_eq. rewrite !existsb_exists.
  split; intros [x [Hx Hp]]; exists x; split; try assumption; now apply H.
Qed.

(** X8: the selection of targets is a set: two non-empty selections with
    the same members, in any order and with any repetitions, make the same
    run, and a selection of all four targets makes the run of no
    selection. *)
Theorem selection_is_a_set (fs : Generate.filesystem)
    (now : ChecklistGenerator.datetime) (template output_dir : string)
    (only1 only2 : list string) :
  let run :=
    Generate.main QLabGenerator_generate TouchDesignerGenerator_generate
      fs now template output_dir in
  only1 <> [] -> only2 <> [] ->
  (forall target, In target only1 <-> In target only2) ->
  run (Some only1) = run (Some only2) /\
  ((forall target,
      In target [ "companion"; "qlab"; "touchdesigner"; "checklist" ] ->
      In target only1) ->
   run (Some only1) = run None).
Proof.
  cbv zeta. intros H1 H2 Hsame. unfold Generate.main.
  destruct (snd (Generate.load_event fs template)) as [code | event];
    [split; reflexivity |].
  destruct only1 as [|x1 l1]; [congruence |].
  destruct only2 as [|x2 l2]; [congruence |].
  split.
  - now rewrite !(existsb_same_members _ (x1 :: l1) (x2 :: l2) Hsame).
  - intros Hall.
    assert (Hsel : forall target,
              In target [ "companion"; "qlab"; "touchdesigner"; "checklist" ] ->
              existsb (String.eqb target) (x1 :: l1) = true).
    { intros target Ht. apply existsb_exists. exists target.
      split; [now apply Hall | apply String.eqb_refl]. }
    rewrite !Hsel by (cbn [In]; tauto). reflexivity.
Qed.

(** X9: a run ends with status 0 or 1; with 1 exactly when the template
    file is missing or lacks the [event_type] or the [cues] key, and then
    it has written no file. *)
Theorem exit_status_of_a_run (fs : Generate.filesystem)
    (now : ChecklistGenerator.datetime) (template output_dir : string)
    (only : option (list string)) :
  let run :=
    Generate.main QLabGenerator_generate TouchDesignerGenerator_generate
      fs now template output_dir only in
  (snd run = 0%Z \/ snd run = 1%Z) /\
  (snd run = 1%Z <->
   fs template = None \/
   exists data, fs template = Some data /\
                (event_type data = None \/ cues data = None)) /\
  (snd run = 1%Z -> fst run = []).
Proof.
  cbv zeta. unfold Generate.main, Generate.load_event, Generate.required_keys.
  destruct (fs template) as [data|] eqn:Hfs; cbn [find snd fst].
  2:{ split; [now right |]. split; [| reflexivity]. split; [now left | reflexivity]. }
  destruct (event_type data) eqn:Hty; cbn [Generate.is_some negb snd fst].
  2:{ split; [now right |]. split; [| reflexivity].
      split; [| reflexivity]. intros _. right. exists data. tauto. }
  destruct (cues data) eqn:Hcs; cbn [Generate.is_some negb snd fst].
  2:{ split; [now right |]. split; [| reflexivity].
      split; [| reflexivity]. intros _. right. exists data. tauto. }
  destruct (fold_left Generate.check_cue _ _) as [out flag]. cbn [snd fst].
  split; [now left |]. split; [| discriminate].
  split; [discriminate |].
  intros [H | [data' [H [H' | H']]]]; try discriminate;
    injection H as <-; congruence.
Qed.
End Main.
End MainExtras.

(** ** Buttons *)

Module ButtonFacts.
Import Notions MoreNotions Facts PageFacts CompanionGenerator.

(** *** Slices, replacement and upper case *)

Lemma slice_to_length (n : nat) (s : string) :
  String.length (slice_to n s) = Nat.min n (String.length s).
Proof.
  unfold slice_to. revert n. induction s as [|c s IH]; intros [|n]; cbn; auto.
Qed.

Lemma slice_to_prefix (n : nat) (s : string) : prefix (slice_to n s) s = true.
Proof.
  unfold slice_to. revert n. induction s as [|c s IH]; intros [|n]; cbn; auto.
  destruct (ascii_dec c c); [apply IH | congruence].
Qed.

Lemma slice_to_all (n : nat) (s : string) :
  String.length s <= n -> slice_to n s = s.
Proof.
  unfold slice_to. revert n. induction s as [|c s IH]; intros [|n] H; cbn in *;
    try reflexivity; try lia.
  f_equal. apply IH. lia.
Qed.

Lemma prefix_empty (s : string) : prefix "" s = true.
Proof. now destruct s. Qed.


Lemma replace_lacking (c : ascii) (old new s : string) :
  lacks c s = true -> replace s (String c old) new = s.
Proof.
  unfold replace. induction s as [|x s IH]; [reflexivity |].
  cbn [lacks replace_from prefix]. intros H. apply andb_true_iff in H as [Hx Hs].
  destruct (ascii_dec c x) as [-> | Hne].
  - now rewrite Ascii.eqb_refl in Hx.
  - now rewrite IH.
Qed.

Lemma digits_lack_c (d : uint) : lacks "c" (NilEmpty.string_of_uint d) = true.
Proof. induction d; cbn; auto. Qed.

Lemma str_of_nat_lacks_c (n : nat) : lacks "c" (str_of_nat n) = true.
Proof.
  unfold str_of_nat, NilZero.string_of_uint.
  destruct (Nat.to_uint n); try apply digits_lack_c. reflexivity.
Qed.

Lemma upper_digits (d : uint) :
  upper (NilEmpty.string_of_uint d) = NilEmpty.string_of_uint d.
Proof. induction d; cbn [NilEmpty.string_of_uint upper]; try rewrite IHd; reflexivity. Qed.

Lemma upper_str_of_nat (n : nat) : upper (str_of_nat n) = str_of_nat n.
Proof.
  unfold str_of_nat, NilZero.string_of_uint.
  destruct (Nat.to_uint n); try apply upper_digits. reflexivity.
Qed.

(** *** A Python integer that counts prints as the count *)

Lemma of_uint_acc_N (d : uint) :
  forall acc : nat,
    N.of_nat (Nat.of_uint_acc d acc) =
    match N.of_nat acc with
    | N0 => Pos.of_uint d
    | Npos p => Npos (Pos.of_uint_acc d p)
    end.
Proof.
  induction d; intros acc; cbn [Nat.of_uint_acc Pos.of_uint Pos.of_uint_acc];
    try (destruct (N.of_nat acc); reflexivity);
    rewrite IHd, Nat.tail_mul_spec;
    (destruct acc as [|a];
     [ reflexivity
     | match goal with
       | |- match N.of_nat ?e with _ => _ end = _ =>
           let p := constr:(Pos.of_succ_nat a) in
           first
             [ replace (N.of_nat e) with (Npos (10 * p)) by lia
             | replace (N.of_nat e) with (Npos (1 + 10 * p)) by lia
             | replace (N.of_nat e) with (Npos (2 + 10 * p)) by lia
             | replace (N.of_nat e) with (Npos (3 + 10 * p)) by lia
             | replace (N.of_nat e) with (Npos (4 + 10 * p)) by lia
             | replace (N.of_nat e) with (Npos (5 + 10 * p)) by lia
             | replace (N.of_nat e) with (Npos (6 + 10 * p)) by lia
             | replace (N.of_nat e) with (Npos (7 + 10 * p)) by lia
             | replace (N.of_nat e) with (Npos (8 + 10 * p)) by lia
             | replace (N.of_nat e) with (Npos (9 + 10 * p)) by lia ]
       end;
       reflexivity ]).
Qed.

Lemma to_uint_pos_nat (m : nat) :
  Pos.to_uint (Pos.of_succ_nat m) = Nat.to_uint (S m).
Proof.
  pose proof (DecimalN.Unsigned.to_of (Nat.to_uint (S m))) as H.
  unfold N.of_uint in H.
  pose proof (of_uint_acc_N (Nat.to_uint (S m)) 0) as HN.
  cbn [N.of_nat] in HN. fold (Nat.of_uint (Nat.to_uint (S m))) in HN.
  rewrite DecimalNat.Unsigned.of_to in HN. rewrite <- HN in H.
  cbn [N.of_nat N.to_uint] in H. rewrite H.
  pose proof (DecimalNat.Unsigned.to_of (Nat.to_uint (S m))) as Hn.
  rewrite DecimalNat.Unsigned.of_to in Hn. now rewrite <- Hn.
Qed.

Lemma str_of_Z_of_nat (n : nat) : str_of_Z (Z.of_nat n) = str_of_nat n.
Proof.
  destruct n as [|m]; [reflexivity |].
  unfold str_of_Z, str_of_nat. cbn [Z.of_nat Z.to_int NilZero.string_of_int].
  now rewrite to_uint_pos_nat.
Qed.

Lemma palette_of_unknown_style (s : string) :
  ~ In s (map fst COLORS) -> dict_get COLORS s = None.
Proof.
  intros H. unfold COLORS in *. cbn [map fst In] in H. cbn [dict_get].
  repeat match goal with
         | |- context [(?k =? s)] =>
             destruct (String.eqb_spec k s); [exfalso; apply H; tauto |]
         end.
  reflexivity.
Qed.

End ButtonFacts.

Module ButtonExtras.
Import Notions MoreNotions Samples Facts PageFacts ButtonFacts CompanionGenerator.

Section Buttons.
Context {rt : Runtime}.

(** X10: only the first argument of a hub action reaches the panel: the
    actions built from a list of hub actions are those built from the same
    hub actions cut down to their first argument. *)
Theorem only_the_first_argument_is_sent (hub_actions : list HubAction) :
  _hub_actions_to_osc hub_actions =
  _hub_actions_to_osc (map first_argument_only hub_actions) /\
  Forall (fun a => value (options a) = None <-> actionId a = "osc:send_no_args")
    (_hub_actions_to_osc hub_actions).
Proof.
  unfold _hub_actions_to_osc. rewrite !hub_actions_to_osc_fold. cbn [List.app].
  split.
  - rewrite map_map. apply map_ext. intros ha.
    unfold dispatched_action, described_action, first_argument_only.
    cbn [ha_address ha_args].
    destruct (ha_args ha) as [[|[] ?]|]; reflexivity.
  - apply Forall_forall. intros a Ha. apply in_map_iff in Ha as [ha [<- _]].
    unfold dispatched_action, described_action.
    destruct (ha_args ha) as [[|[] ?]|]; cbn; split; congruence.
Qed.

(** X11: the text of a cue button is Q, the cue number, a line feed and
    the first 16 characters of the cue name: a name of at most 16
    characters is shown whole. *)
Theorem cue_button_text (cue : Cue) :
  let name := get_or "Untitled" (cue_name cue) in
  exists shown : string,
    style_text (style (_make_cue_button cue)) =
      "Q" ++ str (get_or (VStr "???") (cue_number cue)) ++ nl ++ shown /\
    prefix shown name = true /\
    String.length shown = Nat.min 16 (String.length name) /\
    (String.length name <= 16 -> shown = name).
Proof.
  cbv zeta. exists (slice_to 16 (get_or "Untitled" (cue_name cue))).
  split; [reflexivity |]. split; [apply slice_to_prefix |].
  split; [apply slice_to_length | apply slice_to_all].
Qed.

(** X12: a cue whose type is none of the eight palette names is drawn in
    the blank entry, and a cue without type in the system entry; of all
    types only header turns the top bar off. *)
Theorem cue_button_colours (cue : Cue) :
  let b := style (_make_cue_button cue) in
  (forall ty : string,
     cue_type cue = Some ty -> ~ In ty (map fst COLORS) ->
     bgcolor b = 0%Z /\ color b = 5592405%Z) /\
  (cue_type cue = None -> bgcolor b = 10040217%Z /\ color b = 16777215%Z) /\
  (show_topbar b = false <-> cue_type cue = Some "header").
Proof.
  cbv zeta. unfold _make_cue_button, _make_button. cbn [style bgcolor color show_topbar].
  split; [| split].
  - intros ty Hty Hin. rewrite Hty. cbn [get_or].
    now rewrite (palette_of_unknown_style ty Hin).
  - intros ->. split; reflexivity.
  - rewrite negb_false_iff, String.eqb_eq.
    destruct (cue_type cue) as [ty|]; cbn [get_or]; split; congruence.
Qed.


(** X14: a camera whose id, given or by default, is cam followed by a
    number [n] has the button text CAM[n] over the shot, switches to the
    scene Camera[n] and recalls preset 1 of /cam[n]; a camera whose id
    has no letter c names its scene by the id itself. *)
Theorem camera_button_scene (i : nat) (cam : Camera) :
  let id := get_or ("cam" ++ str_of_nat (i + 1)) (cam_id cam) in
  let shot := str (get_or (VStr "") (cam_shot cam)) in
  let send path :=
    {| actionId := "osc:send_no_args";
       options := {| path := path; value := None |} |} in
  (forall n : nat,
     id = "cam" ++ str_of_nat n ->
     camera_button i cam =
     _make_button ("CAM" ++ str_of_nat n ++ nl ++ shot) "video" "14"
       (Some [ send ("/obs/scene/Camera" ++ str_of_nat n);
               send ("/cam" ++ str_of_nat n ++ "/preset/recall/1") ])) /\
  (lacks "c" id = true ->
   steps (camera_button i cam) =
   one_step [ send ("/obs/scene/" ++ id); send ("/" ++ id ++ "/preset/recall/1") ]).
Proof.
  cbv zeta. unfold camera_button. split.
  - intros n ->.
    assert (Hscene : replace ("cam" ++ str_of_nat n) "cam" "Camera" =
                     "Camera" ++ str_of_nat n).
    { unfold replace. cbn [append replace_from prefix String.length Nat.sub].
      destruct (ascii_dec "c" "c"); [| congruence].
      destruct (ascii_dec "a" "a"); [| congruence].
      destruct (ascii_dec "m" "m"); [| congruence].
      rewrite prefix_empty. cbn [append]. do 6 f_equal.
      apply (replace_lacking "c" "am" "Camera"). apply str_of_nat_lacks_c. }
    rewrite Hscene. cbn [append upper]. rewrite upper_str_of_nat. reflexivity.
  - intros Hid. rewrite (replace_lacking "c" "am" "Camera" _ Hid). reflexivity.
Qed.

(** X15: for a microphone without id and without input channel at index
    [i], the panel counts from the index: the mute button reads MIC[i+1]
    and mutes channel [i + 1], while the hardware section of the checklist
    prints unknown and ? for the same microphone. *)
Theorem microphone_defaults (i : nat) (mic : Microphone) (lines : list string) :
  mic_id mic = None ->
  mic_input_channel mic = None ->
  mute_button i mic =
    _make_button ("MIC" ++ str_of_nat (i + 1) ++ nl ++ "MUTE") "audio" "14"
      (Some [ {| actionId := "osc:send_integer";
                 options :=
                   {| path := "/avantis/ch/" ++ str_of_nat (i + 1) ++ "/mix/mute";
                      value := Some (VInt 1) |} |} ]) /\
  ChecklistGenerator.hardware_mic_step lines mic =
    List.app lines
      [ "- [ ] **unknown** (" ++ str (get_or (VStr "unknown") (mic_type mic)) ++ "): " ++
        str (get_or (VStr "TBD") (mic_model mic));
        "  - Assigned to: " ++ str (get_or (VStr "TBD") (mic_performer mic));
        "  - Input channel: ?";
        "  - Battery check: fresh batteries installed" ].
Proof.
  intros Hid Hch. split.
  - unfold mute_button, mute_path. rewrite Hid, Hch. cbn [get_or str repr].
    rewrite str_of_Z_of_nat. cbn [append upper]. rewrite upper_str_of_nat. reflexivity.
  - unfold ChecklistGenerator.hardware_mic_step. rewrite Hid, Hch. reflexivity.
Qed.
End Buttons.
End ButtonExtras.

(** ** The layout of the pages and the cue sequence *)

Module LayoutExtras.
Import Notions MoreNotions Samples Facts LoopFacts PageFacts AvPageFacts RunFacts.
Import ShowPageFacts.
Import CompanionGenerator.
#[local] Arguments coord : simpl never.
#[local] Arguments _make_button : simpl never.
#[local] Arguments _make_cue_button : simpl never.

Section Pages.
Context {rt : Runtime}.

(** The header row, cell by cell. *)
Lemma show_control_header_get (self : t) (r c : nat) :
  dict_get (show_control_header self) (coord r c) =
  match r, c with
  | 0, 0 =>
      Some (_make_button
              (str (get_or (VStr "Show") (event_name (event self))) ++ nl ++ "CONTROL")
              "header" "14" None)
  | 0, 1 => Some (_make_button "PRE-SHOW" "header" "14" None)
  | 0, 2 => Some _make_go_button
  | 0, 3 => Some _make_stop_button
  | 0, 4 => Some (_make_button "SHOW" "header" "14" None)
  | 0, 6 => Some (_make_button "POST-SHOW" "header" "14" None)
  | _, _ => None
  end.
Proof.
  unfold show_control_header. cbv zeta.
  rewrite (key_coord "0,3" 0 3), (key_coord "0,2" 0 2), (key_coord "0,6" 0 6),
    (key_coord "0,4" 0 4), (key_coord "0,1" 0 1), (key_coord "0,0" 0 0)
    by reflexivity.
  destruct r as [|r]; [| reflexivity].
  do 7 (destruct c as [|c]; [reflexivity |]). reflexivity.
Qed.

(** X16: whatever the cues, row 0 of the Show Control page is the header
    row as first written: the title, PRE-SHOW, GO, STOP, SHOW and
    POST-SHOW at columns 0, 1, 2, 3, 4 and 6, and nothing at columns 5
    and 7. *)
Theorem header_row_is_never_overwritten (ev : Event) (c : nat) :
  dict_get (buttons (_build_show_control_page (__init__ ev))) (coord 0 c) =
  match c with
  | 0 =>
      Some (_make_button
              (str (get_or (VStr "Show") (event_name ev)) ++ nl ++ "CONTROL")
              "header" "14" None)
  | 1 => Some (_make_button "PRE-SHOW" "header" "14" None)
  | 2 => Some _make_go_button
  | 3 => Some _make_stop_button
  | 4 => Some (_make_button "SHOW" "header" "14" None)
  | 6 => Some (_make_button "POST-SHOW" "header" "14" None)
  | _ => None
  end.
Proof.
  rewrite show_page_row0. exact (show_control_header_get (__init__ ev) 0 c).
Qed.

(** X17: from row 1 on, a cell of the Show Control page holds the button
    of a cue of the document or nothing, and no cell at column 8 or more
    holds a button: the cue loops respect the 8 columns of the grid. *)
Theorem cue_cells_hold_cue_buttons (ev : Event) (r c : nat) :
  let page := buttons (_build_show_control_page (__init__ ev)) in
  (1 <= r ->
   forall b : Button,
     dict_get page (coord r c) = Some b ->
     c < 8 /\
     exists cue : Cue, In cue (get_or [] (cues ev)) /\ b = _make_cue_button cue) /\
  (8 <= c -> dict_get page (coord r c) = None).
Proof.
  cbv zeta. rewrite show_page_get. cbv zeta. rewrite show_control_header_get.
  assert (Hbucket : forall (p : Cue -> bool) (n : nat) (cue : Cue),
            nth_error (filter p (get_or [] (cues ev))) n = Some cue ->
            In cue (get_or [] (cues ev))).
  { intros p n cue H. apply nth_error_In in H. now apply filter_In in H. }
  split.
  - intros Hr b. destruct r as [|r]; [lia |].
    destruct (Nat.ltb_spec c 8) as [Hc | Hc]; cbn [andb].
    + intros H. split; [assumption |].
      destruct (24 <=? S r * 8 + c)%nat;
        [destruct (nth_error (post_show_of _) _) as [cue|] eqn:E3;
         [injection H as <-; exists cue; split;
          [exact (Hbucket _ _ _ E3) | reflexivity] |] |];
        (destruct (16 <=? S r * 8 + c)%nat;
         [destruct (nth_error (show_cues_of _) _) as [cue|] eqn:E2;
          [injection H as <-; exists cue; split;
           [exact (Hbucket _ _ _ E2) | reflexivity] |] |];
         (destruct (8 <=? S r * 8 + c)%nat;
          [destruct (nth_error (pre_show_of _) _) as [cue|] eqn:E1;
           [injection H as <-; exists cue; split;
            [exact (Hbucket _ _ _ E1) | reflexivity] |] |];
          discriminate H)).
    + discriminate.
  - intros Hc. replace (c <? 8)%nat with false by (symmetry; apply Nat.ltb_ge; lia).
    cbn [andb]. destruct r as [|r]; [| reflexivity].
    do 8 (destruct c as [|c]; [lia |]). reflexivity.
Qed.

(** X18: the cue sequence of the checklist has one line per cue of the
    document, in document order, after the fixed heading and before a
    closing empty line. *)
Theorem cue_sequence_follows_the_document (ev : Event) :
  ChecklistGenerator._show_time (ChecklistGenerator.__init__ ev) =
  ChecklistGenerator.join_lines
    (ChecklistGenerator.show_time_heading ++
     map ChecklistGenerator.cue_line (get_or [] (cues ev)) ++ [ "" ])%list.
Proof.
  unfold ChecklistGenerator._show_time. cbv zeta.
  cbn [ChecklistGenerator.event ChecklistGenerator.__init__].
  f_equal. unfold list_append at 1. rewrite app_assoc. f_equal.
  generalize ChecklistGenerator.show_time_heading.
  induction (get_or [] (cues ev)) as [|cue l IH]; intros acc; cbn [fold_left map].
  - now rewrite app_nil_r.
  - rewrite IH. unfold list_append. rewrite <- app_assoc. reflexivity.
Qed.

(** X19: the A/V page has buttons on rows 0 to 3 only, and on row 0 only
    its title at column 0: the device loops never leave their rows,
    however many devices there are. *)
Theorem av_page_rows_are_bounded (ev : Event) (r c : nat) :
  let page := buttons (_build_av_control_page (__init__ ev)) in
  (4 <= r -> dict_get page (coord r c) = None) /\
  dict_get page (coord 0 c) =
  match c with
  | 0 => Some (_make_button ("A/V" ++ nl ++ "CONTROL") "header" "14" None)
  | S _ => None
  end.
Proof.
  cbv zeta.
  assert (Hget : forall r' : nat,
            r' <> 1 -> r' <> 2 -> r' <> 3 ->
            dict_get (buttons (_build_av_control_page (__init__ ev))) (coord r' c) =
            if (0 =? r')%nat && (0 =? c)%nat
            then Some (_make_button ("A/V" ++ nl ++ "CONTROL") "header" "14" None)
            else None).
  { intros r' H1 H2 H3.
    cbn [_build_av_control_page buttons]. unfold after_presets, enumerate. cbv zeta.
    rewrite (row_loop_get preset_step 3 preset_button preset_step_eq).
    rewrite (key_coord "3,0" 3 0) by reflexivity.
    unfold after_microphones, enumerate. cbv zeta.
    rewrite microphone_loop_get by (cbn [List.length]; lia).
    rewrite (key_coord "2,0" 2 0) by reflexivity.
    unfold after_cameras, enumerate. cbv zeta.
    rewrite (row_loop_get camera_step 1 camera_button camera_step_eq).
    rewrite (key_coord "1,0" 1 0), (key_coord "0,0" 0 0) by reflexivity.
    replace (r' =? 3)%nat with false by (symmetry; now apply Nat.eqb_neq).
    replace (3 =? r')%nat with false by (symmetry; apply Nat.eqb_neq; congruence).
    replace (r' =? 2)%nat with false by (symmetry; now apply Nat.eqb_neq).
    replace (2 =? r')%nat with false by (symmetry; apply Nat.eqb_neq; congruence).
    replace (r' =? 1)%nat with false by (symmetry; now apply Nat.eqb_neq).
    replace (1 =? r')%nat with false by (symmetry; apply Nat.eqb_neq; congruence).
    reflexivity. }
  split.
  - intros Hr. rewrite Hget by lia.
    replace (0 =? r)%nat with false by (symmetry; apply Nat.eqb_neq; lia).
    reflexivity.
  - rewrite Hget by lia. now destruct c.
Qed.
End Pages.
End LayoutExtras.

(** ** The further properties at sample documents *)

Module ExtraWitnesses.
Import Notions MoreNotions Warnings Samples MoreSamples.
Import ShowPageExtras LoadEventExtras MainExtras ButtonExtras.
Import CompanionGenerator.

(** X1 at the recital document: one cue per bucket. *)
Lemma buckets_within_a_row_keep_every_cue_witness :
  List.length (pre_show_of [ cue 1 "pre-show"; cue 2 "show"; cue 3 "post-show" ]) <= 8 /\
  dict_get
    (buttons (_build_show_control_page (rt := plain_runtime) (__init__ recital)))
    (coord 2 0) =
  Some (_make_cue_button (rt := plain_runtime) (cue 2 "show")).
Proof.
  split; [vm_compute; lia |].
  exact (proj2
           (buckets_within_a_row_keep_every_cue (rt := plain_runtime) recital
              ltac:(vm_compute; lia) ltac:(vm_compute; lia))
           0 (cue 2 "show") eq_refl).
Defined.


(** X3 at a document with nine post-show cues: the ninth is on row 4. *)
Lemma post_show_cues_run_past_the_grid_witness :
  nth_error
    (post_show_of (map (fun n => cue n "post-show") [1; 2; 3; 4; 5; 6; 7; 8; 9]%Z))
    8 = Some (cue 9 "post-show") /\
  dict_get
    (buttons (_build_show_control_page (rt := plain_runtime) (__init__ long_post_show)))
    (coord 4 0) =
  Some (_make_cue_button (rt := plain_runtime) (cue 9 "post-show")).
Proof.
  split; [reflexivity |].
  exact (proj1
           (post_show_cues_run_past_the_grid (rt := plain_runtime) long_post_show
              8 (cue 9 "post-show") eq_refl)).
Defined.

(** X5 at the document with one unknown address and no hub entry. *)
Lemma load_event_prints_exactly_witness :
  holding routed "show.yaml" = Some routed /\
  fst (Generate.load_event (rt := plain_runtime) (holding routed) "show.yaml") =
  [ unknown_prefix_warning (rt := plain_runtime)
      (cue_with [ fade_up; unknown_route ]) unknown_route;
    missing_hub_warning ].
Proof.
  split; [reflexivity |].
  exact (load_event_prints_exactly (rt := plain_runtime) (holding routed)
           "show.yaml" routed eq_refl ltac:(discriminate) ltac:(discriminate)).
Defined.

(** X7 at the recital document, whose cues have no hub action. *)
Lemma clean_document_loads_silently_witness :
  holding recital "show.yaml" = Some recital /\
  Generate.load_event (rt := plain_runtime) (holding recital) "show.yaml" =
  ([], Generate.Return recital).
Proof.
  split; [reflexivity |].
  refine (clean_document_loads_silently (rt := plain_runtime) (holding recital)
            "show.yaml" recital eq_refl ltac:(discriminate) ltac:(discriminate)
            _ (or_intror eq_refl)).
  intros c a Hc Ha. cbn in Hc.
  destruct Hc as [<- | [<- | [<- | []]]]; destruct Ha.
Defined.

(** X8 at two selections of the checklist and the panel. *)
Lemma selection_is_a_set_witness :
  [ "checklist"; "companion" ] <> [] /\
  Generate.main (rt := plain_runtime) (fun _ _ => "") (fun _ _ => "")
    (holding recital) fifth "show.yaml" "output"
    (Some [ "checklist"; "companion" ]) =
  Generate.main (rt := plain_runtime) (fun _ _ => "") (fun _ _ => "")
    (holding recital) fifth "show.yaml" "output"
    (Some [ "companion"; "checklist"; "companion" ]).
Proof.
  split; [discriminate |].
  refine (proj1
            (selection_is_a_set (rt := plain_runtime) (fun _ _ => "") (fun _ _ => "")
               (holding recital) fifth "show.yaml" "output"
               [ "checklist"; "companion" ] [ "companion"; "checklist"; "companion" ]
               ltac:(discriminate) ltac:(discriminate) _)).
  intros target. cbn [In]. tauto.
Defined.

(** X15 at a microphone without any key, third in its list. *)
Lemma microphone_defaults_witness :
  mic_id bare_microphone = None /\
  steps (mute_button (rt := plain_runtime) 2 bare_microphone) =
  one_step
    [ {| actionId := "osc:send_integer";
         options := {| path := "/avantis/ch/3/mix/mute"; value := Some (VInt 1) |} |} ].
Proof.
  split; [reflexivity |].
  exact (f_equal steps
           (proj1
              (microphone_defaults (rt := plain_runtime) 2 bare_microphone []
                 eq_refl eq_refl))).
Defined.

End ExtraWitnesses.
